(** * AuctionSealFHE: confidential batch-auction settlement engine

    A shallow embedding of the Solidity contract [AuctionSealFHE]
    (pragma ^0.8.24) and the properties of its batch lifecycle, bid
    ledger, homomorphic tournament and decryption request/callback
    protocol.

    Conventions of the embedding:
    - [uint256], [bytes32] and [address] values are integers ([Z]);
      Solidity 0.8 arithmetic is checked, so an addition that leaves
      the 256-bit range reverts with [Panic 0x11];
    - a [mapping] is a finite map read with the type's zero value as
      default;
    - every external function is a function from the call environment
      ([msg.sender], [block.timestamp]), its arguments and the storage
      to either a revert or the new storage with the events emitted;
    - the FHE library, the decryption oracle and [keccak256] are
      external collaborators of the contract, taken as an interface
      ([FHEVM]);
    - the internal helpers [_initIfNeeded] and [_requireInitialized]
      are called nowhere in the contract and are left out. *)

From Stdlib Require Import ZArith List Bool Lia String.
From stdpp Require Import base option list gmap.

Local Open Scope Z_scope.

(** ** Machine types *)

Abbreviation address := Z (only parsing).
Abbreviation bytes32 := Z (only parsing).
Abbreviation uint256 := Z (only parsing).
(** [bytes]: a byte string, one list element (0..255) per byte. *)
Abbreviation bytes := (list Z) (only parsing).

Definition MAX_UINT256 : Z := 2 ^ 256 - 1.
Definition MAX_UINT32 : Z := 2 ^ 32 - 1.

(** ** Reverts *)

Inductive Error : Type :=
| NotOwner
| NotProvider
| PausedError
| CooldownActive
| BatchNotOpen
| NoBidsInBatch
| ReplayAttempt
| StateMismatch
| InvalidProof
| BidSubmissionFailed
| DecryptionFailed
| RequireFailed (reason : string)   (* require(cond, reason) *)
| Panic (code : Z)                  (* 0x11: arithmetic overflow *)
| AbiDecodeFailed.                  (* abi.decode on malformed data *)

Inductive Result (A : Type) : Type :=
| Ok (a : A)
| Revert (e : Error).
Arguments Ok {A} a.
Arguments Revert {A} e.

Definition bindR {A B} (r : Result A) (k : A -> Result B) : Result B :=
  match r with
  | Ok a => k a
  | Revert e => Revert e
  end.

Notation "'let!' x ':=' c 'in' k" := (bindR c (fun x => k))
  (at level 10, x name, c at level 100, k at level 200).
Notation "'require!' c 'in' k" := (bindR c (fun _ => k))
  (at level 10, c at level 100, k at level 200).

(** [cond] must hold, otherwise the call reverts with [e]. *)
Definition guard (cond : bool) (e : Error) : Result unit :=
  if cond then Ok tt else Revert e.

(** Checked [a + b] on uint256. *)
Definition checked_add (a b : uint256) : Result uint256 :=
  if a + b <=? MAX_UINT256 then Ok (a + b) else Revert (Panic 17).

(** ** ABI encoding *)

(** The [n] low-order bytes of [v], most significant first. *)
Fixpoint be_bytes (n : nat) (v : Z) : list Z :=
  match n with
  | O => []
  | S n' => be_bytes n' (v / 256) ++ [v mod 256]
  end.

(** The integer a big-endian byte string denotes. *)
Definition be_value (bs : list Z) : Z :=
  fold_left (fun acc b => acc * 256 + b) bs 0.

(** One 32-byte ABI word. *)
Definition word (v : Z) : list Z := be_bytes 32 v.

(** [abi.encode(a)] for an [address]. *)
Definition abi_encode_address (a : address) : bytes := word a.

(** [abi.encode(cts, a)] for [bytes32[] cts] and [address a]: the head
    holds the offset of the array (0x40) and the address, the tail the
    array length and its elements. *)
Definition abi_encode_cts_address (cts : list bytes32) (a : address) : bytes :=
  word 64 ++ word a ++ word (Z.of_nat (length cts)) ++ flat_map word cts.

(** [abi.decode(data, (uint32))]: reads the first word; reverts when
    the data is shorter than a word or the word exceeds 32 bits. *)
Definition abi_decode_uint32 (data : bytes) : Result Z :=
  if (length data <? 32)%nat then Revert AbiDecodeFailed
  else
    let v := be_value (firstn 32 data) in
    if v <=? MAX_UINT32 then Ok v else Revert AbiDecodeFailed.

(** ** The external collaborators

    What the contract imports from [@fhevm/solidity] and the EVM: the
    encrypted types with the operations the contract calls on them, the
    oracle's signature check, the hash and the contract's own address.
    [FHE_select a b c] takes its arguments in the order the contract
    passes them. [asBool] is the truth value on which the contract's
    conditional expression [isGreater ? _ : _] branches. *)
Class FHEVM : Type := {
  euint32 : Type;
  ebool : Type;
  FHE_ge : euint32 -> euint32 -> ebool;
  FHE_select : euint32 -> euint32 -> ebool -> euint32;
  isInitialized : euint32 -> bool;
  toBytes32 : euint32 -> bytes32;
  asBool : ebool -> bool;
  checkSignatures : uint256 -> bytes -> bytes -> bool;
  keccak256 : bytes -> bytes32;
  this : address
}.

(** Modelled from the spec: the FHE library is not among the sources;
    this is what its operations compute on a backend exposing real
    comparisons. Every ciphertext has a plaintext, [a.ge(b)] is true
    exactly when the plaintext of [a] is at least that of [b], and
    [select(a, b, cond)] has the plaintext of [a] when [cond] is true
    and of [b] otherwise. *)
Class FHESemantics (F : FHEVM) : Type := {
  decrypt : euint32 -> Z;
  ge_spec : forall a b : euint32,
    asBool (FHE_ge a b) = (decrypt b <=? decrypt a);
  select_spec : forall (a b : euint32) (c : ebool),
    decrypt (FHE_select a b c) = if asBool c then decrypt a else decrypt b
}.

(** ** The contract *)

Record Env : Type := {
  msg_sender : address;
  block_timestamp : uint256
}.

Section Contract.
Context {F : FHEVM}.

Record Bid : Type := {
  bidder : address;
  encryptedBidAmount : euint32
}.

Record DecryptionContext : Type := {
  batchId : uint256;
  stateHash : bytes32;
  processed : bool
}.

Record State : Type := {
  owner : address;
  isProvider : gmap Z bool;
  paused : bool;
  cooldownSeconds : uint256;
  lastSubmissionTime : gmap Z Z;
  lastDecryptionRequestTime : gmap Z Z;
  bids : list Bid;
  currentBatchId : uint256;
  batchOpen : bool;
  decryptionContexts : gmap Z DecryptionContext
}.

Inductive Event : Type :=
| OwnershipTransferred (previousOwner newOwner : address)
| ProviderAdded (provider : address)
| ProviderRemoved (provider : address)
| Paused (account : address)
| Unpaused (account : address)
| CooldownSecondsSet (oldCooldownSeconds newCooldownSeconds : uint256)
| BatchOpened (id : uint256)
| BatchClosed (id : uint256)
| BidSubmitted (who : address) (id : uint256) (amount : euint32)
| DecryptionRequested (requestId id : uint256) (fingerprint : bytes32)
| AuctionSettled (requestId id : uint256) (winner : address)
                 (winningBidAmount : uint256).

(** *** Mapping reads (absent keys read as the zero value) *)

Definition isProviderOf (s : State) (a : address) : bool :=
  default false (isProvider s !! a).
Definition lastSubmissionTimeOf (s : State) (a : address) : uint256 :=
  default 0 (lastSubmissionTime s !! a).
Definition lastDecryptionRequestTimeOf (s : State) (a : address) : uint256 :=
  default 0 (lastDecryptionRequestTime s !! a).
Definition emptyContext : DecryptionContext :=
  {| batchId := 0; stateHash := 0; processed := false |}.
Definition decryptionContextOf (s : State) (requestId : uint256)
  : DecryptionContext :=
  default emptyContext (decryptionContexts s !! requestId).

(** *** Storage writes *)

Definition set_owner (v : address) (s : State) : State :=
  {| owner := v; isProvider := isProvider s; paused := paused s;
     cooldownSeconds := cooldownSeconds s;
     lastSubmissionTime := lastSubmissionTime s;
     lastDecryptionRequestTime := lastDecryptionRequestTime s;
     bids := bids s; currentBatchId := currentBatchId s;
     batchOpen := batchOpen s;
     decryptionContexts := decryptionContexts s |}.

Definition set_isProvider (a : address) (v : bool) (s : State) : State :=
  {| owner := owner s; isProvider := <[a := v]> (isProvider s);
     paused := paused s; cooldownSeconds := cooldownSeconds s;
     lastSubmissionTime := lastSubmissionTime s;
     lastDecryptionRequestTime := lastDecryptionRequestTime s;
     bids := bids s; currentBatchId := currentBatchId s;
     batchOpen := batchOpen s;
     decryptionContexts := decryptionContexts s |}.

Definition set_paused (v : bool) (s : State) : State :=
  {| owner := owner s; isProvider := isProvider s; paused := v;
     cooldownSeconds := cooldownSeconds s;
     lastSubmissionTime := lastSubmissionTime s;
     lastDecryptionRequestTime := lastDecryptionRequestTime s;
     bids := bids s; currentBatchId := currentBatchId s;
     batchOpen := batchOpen s;
     decryptionContexts := decryptionContexts s |}.

Definition set_cooldownSeconds (v : uint256) (s : State) : State :=
  {| owner := owner s; isProvider := isProvider s; paused := paused s;
     cooldownSeconds := v;
     lastSubmissionTime := lastSubmissionTime s;
     lastDecryptionRequestTime := lastDecryptionRequestTime s;
     bids := bids s; currentBatchId := currentBatchId s;
     batchOpen := batchOpen s;
     decryptionContexts := decryptionContexts s |}.

Definition set_lastSubmissionTime (a : address) (v : uint256) (s : State)
  : State :=
  {| owner := owner s; isProvider := isProvider s; paused := paused s;
     cooldownSeconds := cooldownSeconds s;
     lastSubmissionTime := <[a := v]> (lastSubmissionTime s);
     lastDecryptionRequestTime := lastDecryptionRequestTime s;
     bids := bids s; currentBatchId := currentBatchId s;
     batchOpen := batchOpen s;
     decryptionContexts := decryptionContexts s |}.

Definition set_lastDecryptionRequestTime (a : address) (v : uint256)
  (s : State) : State :=
  {| owner := owner s; isProvider := isProvider s; paused := paused s;
     cooldownSeconds := cooldownSeconds s;
     lastSubmissionTime := lastSubmissionTime s;
     lastDecryptionRequestTime := <[a := v]> (lastDecryptionRequestTime s);
     bids := bids s; currentBatchId := currentBatchId s;
     batchOpen := batchOpen s;
     decryptionContexts := decryptionContexts s |}.

Definition set_bids (v : list Bid) (s : State) : State :=
  {| owner := owner s; isProvider := isProvider s; paused := paused s;
     cooldownSeconds := cooldownSeconds s;
     lastSubmissionTime := lastSubmissionTime s;
     lastDecryptionRequestTime := lastDecryptionRequestTime s;
     bids := v; currentBatchId := currentBatchId s;
     batchOpen := batchOpen s;
     decryptionContexts := decryptionContexts s |}.

Definition set_currentBatchId (v : uint256) (s : State) : State :=
  {| owner := owner s; isProvider := isProvider s; paused := paused s;
     cooldownSeconds := cooldownSeconds s;
     lastSubmissionTime := lastSubmissionTime s;
     lastDecryptionRequestTime := lastDecryptionRequestTime s;
     bids := bids s; currentBatchId := v;
     batchOpen := batchOpen s;
     decryptionContexts := decryptionContexts s |}.

Definition set_batchOpen (v : bool) (s : State) : State :=
  {| owner := owner s; isProvider := isProvider s; paused := paused s;
     cooldownSeconds := cooldownSeconds s;
     lastSubmissionTime := lastSubmissionTime s;
     lastDecryptionRequestTime := lastDecryptionRequestTime s;
     bids := bids s; currentBatchId := currentBatchId s;
     batchOpen := v;
     decryptionContexts := decryptionContexts s |}.

Definition set_decryptionContext (requestId : uint256)
  (v : DecryptionContext) (s : State) : State :=
  {| owner := owner s; isProvider := isProvider s; paused := paused s;
     cooldownSeconds := cooldownSeconds s;
     lastSubmissionTime := lastSubmissionTime s;
     lastDecryptionRequestTime := lastDecryptionRequestTime s;
     bids := bids s; currentBatchId := currentBatchId s;
     batchOpen := batchOpen s;
     decryptionContexts := <[requestId := v]> (decryptionContexts s) |}.

(** [decryptionContexts[requestId].processed = true]: the other two
    fields of the entry keep the value they read as. *)
Definition mark_processed (requestId : uint256) (s : State) : State :=
  set_decryptionContext requestId
    {| batchId := batchId (decryptionContextOf s requestId);
       stateHash := stateHash (decryptionContextOf s requestId);
       processed := true |} s.

(** *** Modifiers *)

Definition onlyOwner (env : Env) (s : State) : Result unit :=
  guard (msg_sender env =? owner s) NotOwner.

Definition onlyProvider (env : Env) (s : State) : Result unit :=
  guard (isProviderOf s (msg_sender env)) NotProvider.

Definition whenNotPaused (s : State) : Result unit :=
  guard (negb (paused s)) PausedError.

Definition checkSubmissionCooldown (env : Env) (s : State) : Result unit :=
  let! readyAt := checked_add (lastSubmissionTimeOf s (msg_sender env))
                              (cooldownSeconds s) in
  guard (negb (block_timestamp env <? readyAt)) CooldownActive.

Definition checkDecryptionCooldown (env : Env) (s : State) : Result unit :=
  let! readyAt := checked_add (lastDecryptionRequestTimeOf s (msg_sender env))
                              (cooldownSeconds s) in
  guard (negb (block_timestamp env <? readyAt)) CooldownActive.

(** *** Constructor and owner operations *)

Definition constructor (env : Env) : State * list Event :=
  ({| owner := msg_sender env;
      isProvider := {[ msg_sender env := true ]};
      paused := false;
      cooldownSeconds := 60;
      lastSubmissionTime := ∅;
      lastDecryptionRequestTime := ∅;
      bids := [];
      currentBatchId := 0;
      batchOpen := false;
      decryptionContexts := ∅ |},
   [ProviderAdded (msg_sender env)]).

Definition transferOwnership (env : Env) (newOwner : address) (s : State)
  : Result (State * list Event) :=
  require! onlyOwner env s in
  require! guard (negb (newOwner =? 0))
                 (RequireFailed "New owner is zero address") in
  Ok (set_owner newOwner s, [OwnershipTransferred (owner s) newOwner]).

Definition addProvider (env : Env) (provider : address) (s : State)
  : Result (State * list Event) :=
  require! onlyOwner env s in
  if negb (isProviderOf s provider)
  then Ok (set_isProvider provider true s, [ProviderAdded provider])
  else Ok (s, []).

Definition removeProvider (env : Env) (provider : address) (s : State)
  : Result (State * list Event) :=
  require! onlyOwner env s in
  if isProviderOf s provider
  then Ok (set_isProvider provider false s, [ProviderRemoved provider])
  else Ok (s, []).

Definition pause (env : Env) (s : State) : Result (State * list Event) :=
  require! onlyOwner env s in
  require! whenNotPaused s in
  Ok (set_paused true s, [Paused (msg_sender env)]).

Definition unpause (env : Env) (s : State) : Result (State * list Event) :=
  require! onlyOwner env s in
  Ok (set_paused false s, [Unpaused (msg_sender env)]).

Definition setCooldownSeconds (env : Env) (newCooldownSeconds : uint256)
  (s : State) : Result (State * list Event) :=
  require! onlyOwner env s in
  require! guard (0 <? newCooldownSeconds)
                 (RequireFailed "Cooldown must be positive") in
  Ok (set_cooldownSeconds newCooldownSeconds s,
      [CooldownSecondsSet (cooldownSeconds s) newCooldownSeconds]).

(** *** Batch lifecycle and bid ledger *)

Definition openBatch (env : Env) (s : State) : Result (State * list Event) :=
  require! onlyOwner env s in
  require! whenNotPaused s in
  let! newId := checked_add (currentBatchId s) 1 in
  Ok (set_bids [] (set_batchOpen true (set_currentBatchId newId s)),
      [BatchOpened newId]).

Definition closeBatch (env : Env) (s : State) : Result (State * list Event) :=
  require! onlyOwner env s in
  require! whenNotPaused s in
  require! guard (batchOpen s) BatchNotOpen in
  Ok (set_batchOpen false s, [BatchClosed (currentBatchId s)]).

Definition submitBid (env : Env) (amount : euint32) (s : State)
  : Result (State * list Event) :=
  require! onlyProvider env s in
  require! whenNotPaused s in
  require! checkSubmissionCooldown env s in
  require! guard (batchOpen s) BatchNotOpen in
  require! guard (isInitialized amount) BidSubmissionFailed in
  let s1 := set_lastSubmissionTime (msg_sender env) (block_timestamp env) s in
  let s2 := set_bids (bids s1 ++ [{| bidder := msg_sender env;
                                     encryptedBidAmount := amount |}]) s1 in
  Ok (s2, [BidSubmitted (msg_sender env) (currentBatchId s) amount]).

(** *** Tournament *)

Definition _hashCiphertexts (cts : list bytes32) : bytes32 :=
  keccak256 (abi_encode_cts_address cts this).

(** One iteration of the loop over [bids[i]], [i >= 1]. *)
Definition tournament_step (acc : euint32 * address) (b : Bid)
  : euint32 * address :=
  let '(maxBid, winner) := acc in
  let isGreater := FHE_ge (encryptedBidAmount b) maxBid in
  let newMax := FHE_select (encryptedBidAmount b) maxBid isGreater in
  let newWinner := if asBool isGreater then bidder b else winner in
  (newMax, newWinner).

(** The loop, started from [bids[0]]. *)
Definition tournament (first : Bid) (rest : list Bid) : euint32 * address :=
  fold_left tournament_step rest (encryptedBidAmount first, bidder first).

(** The handle list both [findHighestBidder] and [myCallback] build
    from the tournament's result: [maxBid.toBytes32()] and the hash
    of the winner's address. *)
Definition tournament_cts (r : euint32 * address) : list bytes32 :=
  [toBytes32 (fst r); keccak256 (abi_encode_address (snd r))].

(** *** Decryption request and callback *)

(** [requestId] is the value [FHE.requestDecryption] returns. *)
Definition findHighestBidder (env : Env) (requestId : uint256) (s : State)
  : Result (State * list Event) :=
  require! onlyOwner env s in
  require! whenNotPaused s in
  require! checkDecryptionCooldown env s in
  match bids s with
  | [] => Revert NoBidsInBatch
  | first :: rest =>
      let cts := tournament_cts (tournament first rest) in
      let fingerprint := _hashCiphertexts cts in
      let s1 := set_decryptionContext requestId
                  {| batchId := currentBatchId s;
                     stateHash := fingerprint;
                     processed := false |} s in
      let s2 := set_lastDecryptionRequestTime (msg_sender env)
                  (block_timestamp env) s1 in
      Ok (s2, [DecryptionRequested requestId (currentBatchId s) fingerprint])
  end.

Definition myCallback (env : Env) (requestId : uint256)
  (cleartexts proof : bytes) (s : State) : Result (State * list Event) :=
  require! guard (negb (processed (decryptionContextOf s requestId)))
                 ReplayAttempt in
  match bids s with
  | [] => Revert NoBidsInBatch
  | first :: rest =>
      let r := tournament first rest in
      let currentHash := _hashCiphertexts (tournament_cts r) in
      require! guard (currentHash =? stateHash (decryptionContextOf s requestId))
                     StateMismatch in
      if checkSignatures requestId cleartexts proof then
        let! winningBidAmount := abi_decode_uint32 cleartexts in
        let s1 := mark_processed requestId s in
        Ok (s1, [AuctionSettled requestId
                   (batchId (decryptionContextOf s1 requestId))
                   (snd r) winningBidAmount])
      else Revert InvalidProof
  end.

(** *** Transactions *)

Inductive Call : Type :=
| TransferOwnership (newOwner : address)
| AddProvider (provider : address)
| RemoveProvider (provider : address)
| Pause
| Unpause
| SetCooldownSeconds (newCooldownSeconds : uint256)
| OpenBatch
| CloseBatch
| SubmitBid (amount : euint32)
| FindHighestBidder (requestId : uint256)
| MyCallback (requestId : uint256) (cleartexts proof : bytes).

Definition exec (env : Env) (c : Call) (s : State)
  : Result (State * list Event) :=
  match c with
  | TransferOwnership newOwner => transferOwnership env newOwner s
  | AddProvider provider => addProvider env provider s
  | RemoveProvider provider => removeProvider env provider s
  | Pause => pause env s
  | Unpause => unpause env s
  | SetCooldownSeconds n => setCooldownSeconds env n s
  | OpenBatch => openBatch env s
  | CloseBatch => closeBatch env s
  | SubmitBid amount => submitBid env amount s
  | FindHighestBidder requestId => findHighestBidder env requestId s
  | MyCallback requestId cleartexts proof =>
      myCallback env requestId cleartexts proof s
  end.

(** A sequence of transactions: a reverted transaction leaves the
    storage as it was and emits nothing. *)
Fixpoint run (txs : list (Env * Call)) (s : State) : State * list Event :=
  match txs with
  | [] => (s, [])
  | (env, c) :: txs' =>
      match exec env c s with
      | Ok (s', evs) => let '(s'', evs') := run txs' s' in (s'', evs ++ evs')
      | Revert _ => run txs' s
      end
  end.

(** A script: every transaction is expected to succeed; the first
    revert is the script's result. *)
Fixpoint run_all (txs : list (Env * Call)) (s : State)
  : Result (State * list Event) :=
  match txs with
  | [] => Ok (s, [])
  | (env, c) :: txs' =>
      let! r := exec env c s in
      let! r' := run_all txs' (fst r) in
      Ok (fst r', snd r ++ snd r')
  end.

(** The modifier lists of the functions, as declared. *)
Definition hasWhenNotPaused (c : Call) : bool :=
  match c with
  | Pause | OpenBatch | CloseBatch | SubmitBid _ | FindHighestBidder _ => true
  | _ => false
  end.

(** The role modifier of a function, evaluated for a caller. The
    callback has none. *)
Definition roleCheck (env : Env) (c : Call) (s : State) : Result unit :=
  match c with
  | SubmitBid _ => onlyProvider env s
  | MyCallback _ _ _ => Ok tt
  | _ => onlyOwner env s
  end.

(** The plaintext amount an event carries: only the settlement event
    has such a field ([winningBidAmount]). *)
Definition revealedAmount (e : Event) : option Z :=
  match e with
  | AuctionSettled _ _ _ winningBidAmount => Some winningBidAmount
  | _ => None
  end.

(** What an event puts in the transaction log: its name and its
    arguments as ABI words, an encrypted amount being logged as its
    [bytes32] handle. *)
Definition event_log (e : Event) : string * list Z :=
  match e with
  | OwnershipTransferred a b => ("OwnershipTransferred"%string, [a; b])
  | ProviderAdded a => ("ProviderAdded"%string, [a])
  | ProviderRemoved a => ("ProviderRemoved"%string, [a])
  | Paused a => ("Paused"%string, [a])
  | Unpaused a => ("Unpaused"%string, [a])
  | CooldownSecondsSet a b => ("CooldownSecondsSet"%string, [a; b])
  | BatchOpened i => ("BatchOpened"%string, [i])
  | BatchClosed i => ("BatchClosed"%string, [i])
  | BidSubmitted a i h => ("BidSubmitted"%string, [a; i; toBytes32 h])
  | DecryptionRequested r i h => ("DecryptionRequested"%string, [r; i; h])
  | AuctionSettled r i w v => ("AuctionSettled"%string, [r; i; w; v])
  end.

End Contract.

Arguments Bid : clear implicits.
Arguments State : clear implicits.
Arguments Event : clear implicits.
Arguments Call : clear implicits.

(** ** A mock backend with real comparisons

    Ciphertext handles are integers, handle [0] is the uninitialised
    one, and a table [pt] gives every handle its plaintext. The
    comparison is computed on the plaintexts and [select] returns the
    chosen handle. [hash] stands in for keccak-256 and [sign] for the
    oracle's signature: no theorem relies on any property of them
    beyond their being functions. *)
Module Mock.

Definition mask256 : Z := Eval vm_compute in Z.ones 256.

Definition hash (bs : list Z) : Z :=
  fold_left (fun acc b => Z.land (acc * 257 + b + 1) mask256) bs 7.

(** The oracle's proof for a request and its cleartexts: one byte. *)
Definition tag (requestId : Z) (cleartexts : list Z) : Z :=
  Z.land (hash (requestId :: cleartexts)) 255.

Definition sign (requestId : Z) (cleartexts : list Z) : list Z :=
  [tag requestId cleartexts].

(** Modelled from the spec: the mock encrypted-value backend, standing
    for the FHE library and the oracle, which are not among the
    sources. *)
Definition fhevm (pt : Z -> Z) : FHEVM :=
  {| euint32 := Z;
     ebool := bool;
     FHE_ge := fun a b => pt b <=? pt a;
     FHE_select := fun a b (c : bool) => if c then a else b;
     isInitialized := fun h => negb (h =? 0);
     toBytes32 := fun h => h;
     asBool := fun c => c;
     checkSignatures := fun requestId cleartexts proof =>
       match proof with
       | [t] => t =? tag requestId cleartexts
       | _ => false
       end;
     keccak256 := hash;
     this := 0xA0C7105EA1 |}.

Definition semantics (pt : Z -> Z) : FHESemantics (fhevm pt) :=
  {| decrypt := pt : @euint32 (fhevm pt) -> Z;
     ge_spec := fun a b => eq_refl;
     select_spec := fun a b (c : @ebool (fhevm pt)) =>
       match c as c0
         return pt (if c0 then a else b) = (if c0 then pt a else pt b)
       with
       | true => eq_refl
       | false => eq_refl
       end |}.

(** Handle [i] (counted from 1) holds the [i]-th plaintext of [l]. *)
Definition plaintexts (l : list Z) (h : Z) : Z :=
  nth (Z.to_nat (h - 1)) l 0.

Definition fhevm_of (l : list Z) : FHEVM := fhevm (plaintexts l).

End Mock.

(** ** Scenarios on the mock backend *)
Module Scenario.

Definition deployer : Z := 0xD0.
Definition A : Z := 0xA.
Definition B : Z := 0xB.
Definition C : Z := 0xC.
Definition outsider : Z := 0xE.

Definition at_ (who t : Z) : Env :=
  {| msg_sender := who; block_timestamp := t |}.

(** The ledger after bidders A, B, C submitted handles 1, 2, 3. *)
Definition ledger {F : FHEVM} (hA hB hC : euint32) : Bid F * list (Bid F) :=
  ({| bidder := A; encryptedBidAmount := hA |},
   [ {| bidder := B; encryptedBidAmount := hB |};
     {| bidder := C; encryptedBidAmount := hC |} ]).

(** The fingerprint of the tournament over that ledger. *)
Definition fingerprint {F : FHEVM} (hA hB hC : euint32) : Z :=
  _hashCiphertexts
    (tournament_cts (tournament (fst (ledger hA hB hC)) (snd (ledger hA hB hC)))).

(** Deployment, three providers, a batch with one bid each. *)
Definition setup {F : FHEVM} (now : Z) (hA hB hC : euint32)
  : list (Env * Call F) :=
  [ (at_ deployer now, AddProvider A);
    (at_ deployer now, AddProvider B);
    (at_ deployer now, AddProvider C);
    (at_ deployer now, OpenBatch);
    (at_ A now, SubmitBid hA);
    (at_ B now, SubmitBid hB);
    (at_ C now, SubmitBid hC) ].

(** Open batch, bids from A, B, C, close batch, request decryption. *)
Definition request {F : FHEVM} (now requestId : Z) (hA hB hC : euint32)
  : list (Env * Call F) :=
  setup now hA hB hC ++
  [ (at_ deployer now, CloseBatch);
    (at_ deployer now, FindHighestBidder requestId) ].

(** The events of [setup] and of [request], when every transaction
    succeeds. *)
Definition setup_events {F : FHEVM} (hA hB hC : euint32) : list (Event F) :=
  [ ProviderAdded A; ProviderAdded B; ProviderAdded C; BatchOpened 1;
    BidSubmitted A 1 hA; BidSubmitted B 1 hB; BidSubmitted C 1 hC ].

Definition request_events {F : FHEVM} (requestId : Z) (hA hB hC : euint32)
  : list (Event F) :=
  setup_events hA hB hC ++
  [ BatchClosed 1; DecryptionRequested requestId 1 (fingerprint hA hB hC) ].

(** ... and the oracle's callback. *)
Definition end_to_end {F : FHEVM} (now requestId : Z) (hA hB hC : euint32)
  (cleartexts proof : list Z) : list (Env * Call F) :=
  request now requestId hA hB hC ++
  [ (at_ outsider now, MyCallback requestId cleartexts proof) ].

Definition deployed {F : FHEVM} (now : Z) : State F :=
  fst (constructor (at_ deployer now)).

(** The cleartexts the oracle returns for a winning amount [v]: the
    ABI encoding of the amount followed by the second handle's
    value. *)
Definition cleartexts_of (v second : Z) : list Z := word v ++ word second.

(** The running example: plaintexts 5, 15, 9 behind handles 1, 2, 3,
    every transaction at time 100, request id 7. *)
Definition F_5_15_9 : FHEVM := Mock.fhevm_of [5; 15; 9].

Definition fresh : State F_5_15_9 := deployed 100.

Definition after_setup : State F_5_15_9 :=
  fst (run (@setup F_5_15_9 100 1 2 3) fresh).

(** The tie-break example: plaintexts 10, 20, 20. *)
Definition F_10_20_20 : FHEVM := Mock.fhevm_of [10; 20; 20].

Definition ledger_10_20_20 : list (Bid F_10_20_20) :=
  fst (@ledger F_10_20_20 1 2 3) :: snd (@ledger F_10_20_20 1 2 3).

Definition requested : State F_5_15_9 :=
  fst (run (@request F_5_15_9 100 7 1 2 3) (deployed 100)).

Definition oracle_cleartexts : list Z :=
  cleartexts_of 15 (Mock.hash (abi_encode_address B)).

Definition oracle_proof : list Z := Mock.sign 7 oracle_cleartexts.

(** The batch of [after_setup], closed. *)
Definition closed : State F_5_15_9 :=
  fst (run [(at_ deployer 100, CloseBatch)] after_setup).

(** A new batch is opened between the request and its callback. *)
Definition reopened : State F_5_15_9 :=
  fst (run [(at_ deployer 100, OpenBatch)] requested).

(** The request is made while the batch is still open, and A bids
    again (handle 1, plaintext 5) before the callback. *)
Definition requested_open : State F_5_15_9 :=
  fst (run [(at_ deployer 100, FindHighestBidder 7)] after_setup).

Definition late_bid : State F_5_15_9 :=
  fst (run [(at_ A 200, SubmitBid (1 : @euint32 F_5_15_9))] requested_open).

(** The owner pauses the freshly deployed contract. *)
Definition paused_state : State F_5_15_9 :=
  fst (run [(at_ deployer 100, Pause)] fresh).

(** After the three bids (A's at time 100) the owner sets the
    cooldown to the largest uint256. *)
Definition huge_cooldown : State F_5_15_9 :=
  fst (run [(at_ deployer 100, SetCooldownSeconds MAX_UINT256)] after_setup).

(** After the three bids the owner removes A from the providers. *)
Definition A_removed : State F_5_15_9 :=
  fst (run [(at_ deployer 100, RemoveProvider A)] after_setup).

End Scenario.

(** ** More scenarios on the mock backend *)
Module Scenario2.

(** After the request of [Scenario.requested] a new batch is opened
    and A and B bid again with their handles. *)
Definition rebid_script : list (Env * Call Scenario.F_5_15_9) :=
  [ (Scenario.at_ Scenario.deployer 100, OpenBatch);
    (Scenario.at_ Scenario.A 200, SubmitBid (1 : @euint32 Scenario.F_5_15_9));
    (Scenario.at_ Scenario.B 200, SubmitBid (2 : @euint32 Scenario.F_5_15_9)) ].

Definition rebid : State Scenario.F_5_15_9 :=
  fst (run rebid_script Scenario.requested).

(** A second request, under id 8, before the callback of request 7. *)
Definition requested_twice : State Scenario.F_5_15_9 :=
  fst (run [(Scenario.at_ Scenario.deployer 200, FindHighestBidder 8)]
         Scenario.requested).

Definition oracle_proof_8 : list Z := Mock.sign 8 Scenario.oracle_cleartexts.

End Scenario2.

(** ** Specification vocabulary *)

Section Plaintexts.
Context {F : FHEVM} {S : FHESemantics F}.

Definition plaintext (b : Bid F) : Z := decrypt (encryptedBidAmount b).

(** [m] is the maximum of the ledger's plaintexts. *)
Definition is_maximum (ledger : list (Bid F)) (m : Z) : Prop :=
  Forall (fun b => plaintext b <= m) ledger /\
  Exists (fun b => plaintext b = m) ledger.

(** [w] is the bidder of the last bid of the ledger whose plaintext
    is [m]: every bid submitted after it is strictly below [m]. *)
Definition is_last_with (ledger : list (Bid F)) (m : Z) (w : address)
  : Prop :=
  exists pre b post,
    ledger = pre ++ b :: post /\
    plaintext b = m /\ bidder b = w /\
    Forall (fun b' => plaintext b' < m) post.

End Plaintexts.

Section Requests.
Context {F : FHEVM}.

(** The transaction is a decryption request to which the oracle
    gives the id [requestId]. *)
Definition issues (requestId : Z) (c : Call F) : bool :=
  match c with
  | FindHighestBidder r => r =? requestId
  | _ => false
  end.

(** No transaction of the sequence is a request with id [requestId]:
    the oracle hands out an id once. *)
Definition never_reissued (requestId : Z) (txs : list (Env * Call F)) : Prop :=
  Forall (fun tx => issues requestId (snd tx) = false) txs.

End Requests.

(** ** The tournament *)

Section TournamentFacts.
Context {F : FHEVM} {S : FHESemantics F}.

Lemma tournament_snoc (first : Bid F) (rest : list (Bid F)) (b : Bid F) :
  tournament first (rest ++ [b]) = tournament_step (tournament first rest) b.
Proof. unfold tournament. now rewrite fold_left_app. Qed.

Lemma tournament_step_decrypt (acc : euint32 * Z) (b : Bid F) :
  decrypt (fst (tournament_step acc b))
  = Z.max (decrypt (fst acc)) (plaintext b).
Proof.
  destruct acc as [maxBid winner]; cbn.
  rewrite select_spec, ge_spec. unfold plaintext.
  destruct (Z.leb_spec (decrypt maxBid) (decrypt (encryptedBidAmount b))); lia.
Qed.

Lemma tournament_step_winner (acc : euint32 * Z) (b : Bid F) :
  snd (tournament_step acc b)
  = if decrypt (fst acc) <=? plaintext b then bidder b else snd acc.
Proof.
  destruct acc as [maxBid winner]; cbn. now rewrite ge_spec.
Qed.

(** The loop invariant: after any prefix of the ledger the running
    ciphertext decrypts to the maximum of the prefix, and the running
    winner is the last bidder of the prefix who reaches it. *)
Lemma tournament_invariant (first : Bid F) (rest : list (Bid F)) :
  is_maximum (first :: rest) (decrypt (fst (tournament first rest))) /\
  is_last_with (first :: rest) (decrypt (fst (tournament first rest)))
               (snd (tournament first rest)).
Proof.
  induction rest as [|b rest IH] using rev_ind.
  - cbn. split.
    + split; [constructor; [unfold plaintext; lia | constructor]
             | now constructor].
    + exists [], first, []. repeat split; constructor.
  - rewrite tournament_snoc.
    destruct IH as [[Hle Hex] (pre & w & post & Hsplit & Hw & Hbid & Hpost)].
    set (r := tournament first rest) in *.
    rewrite tournament_step_decrypt, tournament_step_winner.
    change (first :: rest ++ [b]) with ((first :: rest) ++ [b]).
    destruct (Z.leb_spec (decrypt (fst r)) (plaintext b)) as [Hge | Hlt].
    + rewrite Z.max_r by lia. split.
      * split.
        -- apply Forall_app; split.
           ++ eapply Forall_impl; [exact Hle |]. cbn; intros; lia.
           ++ constructor; [lia | constructor].
        -- apply Exists_app. right. now constructor.
      * exists (first :: rest), b, []. repeat split. constructor.
    + rewrite Z.max_l by lia. split.
      * split.
        -- apply Forall_app; split; [exact Hle |].
           constructor; [lia | constructor].
        -- apply Exists_app. now left.
      * exists pre, w, (post ++ [b]). repeat split; try assumption.
        -- rewrite Hsplit. now rewrite <- app_assoc.
        -- apply Forall_app; split; [exact Hpost |].
           constructor; [lia | constructor].
Qed.

End TournamentFacts.

(** ** Reasoning about the operations *)

Ltac unfold_modifiers :=
  unfold onlyOwner, onlyProvider, whenNotPaused, checkSubmissionCooldown,
    checkDecryptionCooldown, checked_add, guard, bindR in *.

Ltac unfold_ops :=
  unfold exec, transferOwnership, addProvider, removeProvider, pause, unpause,
    setCooldownSeconds, openBatch, closeBatch, submitBid, findHighestBidder,
    myCallback in *;
  unfold_modifiers.

Section StorageFacts.
Context {F : FHEVM}.

Lemma context_after_write (requestId : Z) (v : DecryptionContext)
  (s : State F) :
  decryptionContextOf (set_decryptionContext requestId v s) requestId = v.
Proof.
  unfold decryptionContextOf, set_decryptionContext; cbn.
  now rewrite lookup_insert_eq.
Qed.

Lemma context_after_other_write (r requestId : Z) (v : DecryptionContext)
  (s : State F) :
  r <> requestId ->
  decryptionContextOf (set_decryptionContext r v s) requestId
  = decryptionContextOf s requestId.
Proof.
  intros Hne. unfold decryptionContextOf, set_decryptionContext; cbn.
  now rewrite lookup_insert_ne.
Qed.

Lemma processed_after_mark (requestId : Z) (s : State F) :
  processed (decryptionContextOf (mark_processed requestId s) requestId)
  = true.
Proof. unfold mark_processed. now rewrite context_after_write. Qed.

Lemma batchId_after_mark (requestId : Z) (s : State F) :
  batchId (decryptionContextOf (mark_processed requestId s) requestId)
  = batchId (decryptionContextOf s requestId).
Proof. unfold mark_processed. now rewrite context_after_write. Qed.

Lemma context_after_other_mark (r requestId : Z) (s : State F) :
  r <> requestId ->
  decryptionContextOf (mark_processed r s) requestId
  = decryptionContextOf s requestId.
Proof. intros Hne. unfold mark_processed. now apply context_after_other_write. Qed.

End StorageFacts.

Section CallbackFacts.
Context {F : FHEVM}.

(** What a successful callback has checked and done. *)
Lemma myCallback_success (env : Env) (requestId : Z) (cleartexts proof : list Z)
  (s s' : State F) (evs : list (Event F)) :
  myCallback env requestId cleartexts proof s = Ok (s', evs) ->
  processed (decryptionContextOf s requestId) = false /\
  s' = mark_processed requestId s /\
  exists first rest amount,
    bids s = first :: rest /\
    _hashCiphertexts (tournament_cts (tournament first rest))
    = stateHash (decryptionContextOf s requestId) /\
    checkSignatures requestId cleartexts proof = true /\
    abi_decode_uint32 cleartexts = Ok amount /\
    evs = [AuctionSettled requestId (batchId (decryptionContextOf s requestId))
             (snd (tournament first rest)) amount].
Proof.
  unfold myCallback, guard, bindR.
  destruct (processed (decryptionContextOf s requestId)) eqn:Hp; cbn;
    [discriminate |].
  destruct (bids s) as [|first rest]; [discriminate |].
  destruct (_ =? _) eqn:Hh; [| discriminate].
  destruct (checkSignatures _ _ _) eqn:Hs; [| discriminate].
  destruct (abi_decode_uint32 cleartexts) as [amount |] eqn:Hd;
    [| discriminate].
  intros H; injection H as <- <-.
  split; [reflexivity |]. split; [reflexivity |].
  exists first, rest, amount. rewrite batchId_after_mark.
  apply Z.eqb_eq in Hh. auto.
Qed.

Lemma myCallback_replay (env : Env) (requestId : Z) (cleartexts proof : list Z)
  (s : State F) :
  processed (decryptionContextOf s requestId) = true ->
  myCallback env requestId cleartexts proof s = Revert ReplayAttempt.
Proof. intros Hp. unfold myCallback, guard, bindR. now rewrite Hp. Qed.

End CallbackFacts.

Section ReplayProtection.
Context {F : FHEVM}.

(** Once set, the flag of a request survives every transaction that
    is not a new request under the same id. *)
Lemma exec_keeps_processed (requestId : Z) (env : Env) (c : Call F)
  (s s' : State F) (evs : list (Event F)) :
  exec env c s = Ok (s', evs) ->
  issues requestId c = false ->
  processed (decryptionContextOf s requestId) = true ->
  processed (decryptionContextOf s' requestId) = true.
Proof.
  intros Hex Hiss Hp.
  destruct c; cbn in Hiss;
    try (unfold_ops; repeat case_match; simplify_eq; exact Hp).
  - (* FindHighestBidder *)
    apply Z.eqb_neq in Hiss.
    unfold exec, findHighestBidder in Hex. unfold_modifiers.
    repeat case_match; simplify_eq.
    unfold set_lastDecryptionRequestTime, decryptionContextOf; cbn.
    rewrite lookup_insert_ne by exact Hiss. exact Hp.
  - (* MyCallback *)
    cbn in Hex. apply myCallback_success in Hex as (Hf & -> & _).
    destruct (decide (requestId0 = requestId)) as [-> | Hne].
    + apply processed_after_mark.
    + now rewrite context_after_other_mark.
Qed.

Lemma run_keeps_processed (requestId : Z) (txs : list (Env * Call F))
  (s : State F) :
  never_reissued requestId txs ->
  processed (decryptionContextOf s requestId) = true ->
  processed (decryptionContextOf (fst (run txs s)) requestId) = true.
Proof.
  intros Hfresh. revert s.
  induction Hfresh as [| [env c] txs Hc _ IH]; intros s Hp; cbn.
  - exact Hp.
  - destruct (exec env c s) as [[s' evs] |] eqn:Hex.
    + specialize (IH s' (exec_keeps_processed _ _ _ _ _ _ Hex Hc Hp)).
      destruct (run txs s'); exact IH.
    + apply IH, Hp.
Qed.

(** Only the callback raises the flag of a request. *)
Lemma processed_raised_by_callback (requestId : Z) (env : Env) (c : Call F)
  (s s' : State F) (evs : list (Event F)) :
  exec env c s = Ok (s', evs) ->
  processed (decryptionContextOf s requestId) = false ->
  processed (decryptionContextOf s' requestId) = true ->
  exists cleartexts proof, c = MyCallback requestId cleartexts proof.
Proof.
  intros Hex Hf Ht.
  destruct c;
    try (exfalso; unfold_ops; repeat case_match; simplify_eq;
         unfold decryptionContextOf in *; cbn in *; congruence).
  - (* FindHighestBidder *)
    exfalso. unfold exec, findHighestBidder in Hex. unfold_modifiers.
    repeat case_match; simplify_eq.
    unfold set_lastDecryptionRequestTime, decryptionContextOf in *;
      cbn in *.
    destruct (decide (requestId0 = requestId)) as [-> | Hne].
    + rewrite lookup_insert_eq in Ht. discriminate.
    + rewrite lookup_insert_ne in Ht by exact Hne. congruence.
  - (* MyCallback *)
    cbn in Hex. apply myCallback_success in Hex as (_ & -> & _).
    destruct (decide (requestId0 = requestId)) as [-> | Hne].
    + eauto.
    + rewrite context_after_other_mark in Ht by exact Hne. congruence.
Qed.

End ReplayProtection.

(** C2. When a callback for a request id succeeds, the request's
    [processed] flag was false before it and is true after it, and any
    further callback for that id reverts with [ReplayAttempt] whatever
    cleartexts and proof it carries: immediately, and after any
    sequence of transactions in which the id is not issued again. The
    flag is raised by no operation other than a successful callback
    for that id, so it becomes true exactly once. *)
Theorem callback_replay_rejected :
  forall (F : FHEVM) (requestId : Z),
    (forall (env : Env) (cleartexts proof : list Z)
            (s s' : State F) (evs : list (Event F)),
        myCallback env requestId cleartexts proof s = Ok (s', evs) ->
        processed (decryptionContextOf s requestId) = false /\
        processed (decryptionContextOf s' requestId) = true /\
        (forall env' cleartexts' proof',
            myCallback env' requestId cleartexts' proof' s'
            = Revert ReplayAttempt) /\
        (forall txs : list (Env * Call F),
            never_reissued requestId txs ->
            processed (decryptionContextOf (fst (run txs s')) requestId) = true /\
            forall env' cleartexts' proof',
              myCallback env' requestId cleartexts' proof' (fst (run txs s'))
              = Revert ReplayAttempt)) /\
    (forall (env : Env) (c : Call F) (s s' : State F) (evs : list (Event F)),
        exec env c s = Ok (s', evs) ->
        processed (decryptionContextOf s requestId) = false ->
        processed (decryptionContextOf s' requestId) = true ->
        exists cleartexts proof, c = MyCallback requestId cleartexts proof).
Proof.
  intros F requestId. split.
  - intros env cleartexts proof s s' evs Hok.
    apply myCallback_success in Hok as (Hbefore & -> & _).
    pose proof (processed_after_mark requestId s) as Hafter.
    split; [exact Hbefore |]. split; [exact Hafter |]. split.
    + intros. now apply myCallback_replay.
    + intros txs Hfresh.
      pose proof (run_keeps_processed requestId txs _ Hfresh Hafter) as Hlater.
      split; [exact Hlater |]. intros. now apply myCallback_replay.
  - intros env c s s' evs. apply processed_raised_by_callback.
Qed.

Lemma callback_replay_rejected_witness :
  @myCallback Scenario.F_5_15_9 (Scenario.at_ Scenario.outsider 100) 7
    Scenario.oracle_cleartexts Scenario.oracle_proof Scenario.requested
  = Ok (mark_processed 7 Scenario.requested,
        [AuctionSettled 7 1 Scenario.B 15]) /\
  @myCallback Scenario.F_5_15_9 (Scenario.at_ Scenario.deployer 500) 7
    [] [] (mark_processed 7 Scenario.requested)
  = Revert ReplayAttempt.
Proof.
  assert (Hfirst :
    @myCallback Scenario.F_5_15_9 (Scenario.at_ Scenario.outsider 100) 7
      Scenario.oracle_cleartexts Scenario.oracle_proof Scenario.requested
    = Ok (mark_processed 7 Scenario.requested,
          [AuctionSettled 7 1 Scenario.B 15])) by reflexivity.
  split; [exact Hfirst |].
  apply (proj1 (callback_replay_rejected Scenario.F_5_15_9 7) _ _ _ _ _ _ Hfirst).
Defined.

(** ** Batch lifecycle *)

Section BatchLifecycle.
Context {F : FHEVM}.

(** [openBatch] succeeds exactly for the owner of an unpaused
    contract whose batch counter can still be incremented, and then
    its result is the following. *)
Lemma openBatch_ok (env : Env) (s : State F) :
  msg_sender env = owner s ->
  paused s = false ->
  currentBatchId s < MAX_UINT256 ->
  openBatch env s
  = Ok (set_bids [] (set_batchOpen true
                       (set_currentBatchId (currentBatchId s + 1) s)),
        [BatchOpened (currentBatchId s + 1)]).
Proof.
  intros Hown Hp Hid. unfold openBatch; unfold_modifiers.
  rewrite Hown, Z.eqb_refl, Hp; cbn.
  destruct (Z.leb_spec (currentBatchId s + 1) MAX_UINT256); [reflexivity | lia].
Qed.

Lemma openBatch_success (env : Env) (s s' : State F) (evs : list (Event F)) :
  openBatch env s = Ok (s', evs) ->
  msg_sender env = owner s /\ paused s = false /\
  currentBatchId s < MAX_UINT256 /\
  s' = set_bids [] (set_batchOpen true
                      (set_currentBatchId (currentBatchId s + 1) s)) /\
  evs = [BatchOpened (currentBatchId s + 1)].
Proof.
  unfold openBatch; unfold_modifiers.
  destruct (Z.eqb_spec (msg_sender env) (owner s)) as [Hown |]; [| discriminate].
  destruct (paused s); [discriminate |]. cbn.
  destruct (Z.leb_spec (currentBatchId s + 1) MAX_UINT256) as [Hid |];
    [| discriminate].
  intros Hok; injection Hok as <- <-. repeat split; [assumption | lia].
Qed.

(** The batch counter grows by at most one per transaction, so a
    contract that has seen [n] transactions since deployment has a
    counter of at most [n]. *)
Lemma exec_currentBatchId (env : Env) (c : Call F) (s s' : State F)
  (evs : list (Event F)) :
  exec env c s = Ok (s', evs) ->
  currentBatchId s <= currentBatchId s' <= currentBatchId s + 1.
Proof.
  intros Hex.
  destruct c; unfold_ops; repeat case_match; simplify_eq; cbn; lia.
Qed.

Lemma run_currentBatchId (txs : list (Env * Call F)) (s : State F) :
  currentBatchId (fst (run txs s))
  <= currentBatchId s + Z.of_nat (length txs).
Proof.
  revert s. induction txs as [| [env c] txs IH]; intros s; cbn [run length].
  - cbn. lia.
  - destruct (exec env c s) as [[s' evs] |] eqn:Hex.
    + apply exec_currentBatchId in Hex. specialize (IH s').
      destruct (run txs s'); cbn in *. lia.
    + specialize (IH s). lia.
Qed.

End BatchLifecycle.

(** C6. A successful [openBatch] was called by the owner on an
    unpaused contract; it leaves [currentBatchId] one higher, the
    batch open and the ledger empty, and emits exactly one event,
    [BatchOpened] with the new id. It does succeed for the owner of an
    unpaused contract (the counter, which grows by at most one per
    transaction, being below the top of its range). *)
Theorem openBatch_increments_opens_clears :
  forall (F : FHEVM),
    (forall (env : Env) (s s' : State F) (evs : list (Event F)),
        openBatch env s = Ok (s', evs) ->
        msg_sender env = owner s /\ paused s = false /\
        currentBatchId s' = currentBatchId s + 1 /\
        batchOpen s' = true /\
        bids s' = [] /\
        evs = [BatchOpened (currentBatchId s')]) /\
    (forall (env : Env) (s : State F),
        msg_sender env = owner s ->
        paused s = false ->
        currentBatchId s < MAX_UINT256 ->
        exists s', openBatch env s = Ok (s', [BatchOpened (currentBatchId s + 1)])).
Proof.
  intros F. split.
  - intros env s s' evs Hok.
    apply openBatch_success in Hok as (Hown & Hp & _ & -> & ->).
    repeat split; assumption.
  - intros env s Hown Hp Hid. eexists. now apply openBatch_ok.
Qed.

Lemma openBatch_increments_opens_clears_witness :
  exists s',
    openBatch (Scenario.at_ Scenario.deployer 100) Scenario.fresh
    = Ok (s', [BatchOpened 1]) /\
    currentBatchId s' = 1 /\ batchOpen s' = true /\ bids s' = [].
Proof.
  destruct (proj2 (openBatch_increments_opens_clears Scenario.F_5_15_9)
              (Scenario.at_ Scenario.deployer 100) Scenario.fresh)
    as [s' Hok]; [reflexivity | reflexivity | reflexivity |].
  exists s'. split; [exact Hok |].
  destruct (proj1 (openBatch_increments_opens_clears Scenario.F_5_15_9)
              _ _ s' _ Hok)
    as (_ & _ & Hid & Hopen & Hbids & _).
  repeat split; assumption.
Defined.

(** C9. [openBatch] has no precondition on [batchOpen]: called by the
    owner of an unpaused contract while a batch is open, it succeeds,
    starts the next batch with an empty ledger, whatever bids the open
    batch held, and emits [BatchOpened] only, no [BatchClosed]. *)
Theorem openBatch_while_open_discards_bids :
  forall (F : FHEVM) (env : Env) (s : State F),
    batchOpen s = true ->
    msg_sender env = owner s ->
    paused s = false ->
    currentBatchId s < MAX_UINT256 ->
    exists s' evs,
      openBatch env s = Ok (s', evs) /\
      currentBatchId s' = currentBatchId s + 1 /\
      batchOpen s' = true /\
      bids s' = [] /\
      evs = [BatchOpened (currentBatchId s + 1)] /\
      (forall id, ~ In (BatchClosed id) evs).
Proof.
  intros F env s _ Hown Hp Hid.
  eexists _, _. split; [now apply openBatch_ok |].
  cbn. repeat split.
  intros id [Hin | []]. discriminate.
Qed.

Lemma openBatch_while_open_discards_bids_witness :
  (batchOpen Scenario.after_setup = true /\
   length (bids Scenario.after_setup) = 3%nat) /\
  exists s' evs,
    openBatch (Scenario.at_ Scenario.deployer 100) Scenario.after_setup
    = Ok (s', evs) /\
    currentBatchId s' = currentBatchId Scenario.after_setup + 1 /\
    batchOpen s' = true /\
    bids s' = [] /\
    evs = [BatchOpened (currentBatchId Scenario.after_setup + 1)] /\
    (forall id, ~ In (BatchClosed id) evs).
Proof.
  split; [split; reflexivity |].
  apply (openBatch_while_open_discards_bids Scenario.F_5_15_9
           (Scenario.at_ Scenario.deployer 100) Scenario.after_setup);
    reflexivity.
Defined.

(** ** Decryption request *)

Section RequestFacts.
Context {F : FHEVM}.

(** What a successful [findHighestBidder] has checked and written. *)
Lemma findHighestBidder_success (env : Env) (requestId : Z)
  (s s' : State F) (evs : list (Event F)) :
  findHighestBidder env requestId s = Ok (s', evs) ->
  exists first rest,
    bids s = first :: rest /\
    let fingerprint :=
      _hashCiphertexts (tournament_cts (tournament first rest)) in
    s' = set_lastDecryptionRequestTime (msg_sender env) (block_timestamp env)
           (set_decryptionContext requestId
              {| batchId := currentBatchId s;
                 stateHash := fingerprint;
                 processed := false |} s) /\
    evs = [DecryptionRequested requestId (currentBatchId s) fingerprint].
Proof.
  unfold findHighestBidder; unfold_modifiers.
  repeat case_match; try discriminate.
  intros Hok; injection Hok as <- <-. eauto.
Qed.

End RequestFacts.

(** C1. For every non-empty ledger (a first bid and the bids after it)
    and every backend whose comparison and select act on plaintexts,
    the ciphertext the tournament ends with decrypts to the maximum of
    all the bids' plaintexts, and the winner it ends with is the bidder
    of the last-submitted bid that reaches this maximum. A successful
    [findHighestBidder] commits the fingerprint of exactly this result
    of the tournament over its ledger. On the mock backend, amounts 10,
    20, 20 from bidders A, B, C give winner C. *)
Theorem tournament_true_maximum_last_wins :
  (forall (F : FHEVM) (S : FHESemantics F)
          (first : Bid F) (rest : list (Bid F)),
      is_maximum (first :: rest) (decrypt (fst (tournament first rest))) /\
      is_last_with (first :: rest) (decrypt (fst (tournament first rest)))
                   (snd (tournament first rest))) /\
  (forall (F : FHEVM) (S : FHESemantics F) (env : Env) (requestId : Z)
          (s s' : State F) (evs : list (Event F)),
      findHighestBidder env requestId s = Ok (s', evs) ->
      exists maxBid winner,
        stateHash (decryptionContextOf s' requestId)
        = _hashCiphertexts (tournament_cts (maxBid, winner)) /\
        is_maximum (bids s) (decrypt maxBid) /\
        is_last_with (bids s) (decrypt maxBid) winner) /\
  (map (@plaintext Scenario.F_10_20_20 (Mock.semantics _))
       Scenario.ledger_10_20_20 = [10; 20; 20] /\
   map bidder Scenario.ledger_10_20_20 = [Scenario.A; Scenario.B; Scenario.C] /\
   snd (@tournament Scenario.F_10_20_20
          (fst (@Scenario.ledger Scenario.F_10_20_20 1 2 3))
          (snd (@Scenario.ledger Scenario.F_10_20_20 1 2 3)))
   = Scenario.C).
Proof.
  split; [| split].
  - intros F S first rest. apply tournament_invariant.
  - intros F S env requestId s s' evs Hok.
    apply findHighestBidder_success in Hok as (first & rest & Hbids & -> & _).
    destruct (tournament first rest) as [maxBid winner] eqn:Hres.
    exists maxBid, winner. split.
    + unfold decryptionContextOf; cbn. now rewrite lookup_insert_eq.
    + rewrite Hbids.
      pose proof (tournament_invariant first rest) as Hinv.
      now rewrite Hres in Hinv.
  - split; [| split]; vm_compute; reflexivity.
Qed.

Lemma tournament_true_maximum_last_wins_witness :
  findHighestBidder (Scenario.at_ Scenario.deployer 100) 7 Scenario.closed
  = Ok (Scenario.requested,
        [DecryptionRequested 7 1
           (stateHash (decryptionContextOf Scenario.requested 7))]) /\
  exists (maxBid : @euint32 Scenario.F_5_15_9) (winner : Z),
    stateHash (decryptionContextOf Scenario.requested 7)
    = @_hashCiphertexts Scenario.F_5_15_9
        (@tournament_cts Scenario.F_5_15_9 (maxBid, winner)) /\
    @is_maximum Scenario.F_5_15_9 (Mock.semantics _)
      (bids Scenario.closed)
      (@decrypt Scenario.F_5_15_9 (Mock.semantics _) maxBid) /\
    @is_last_with Scenario.F_5_15_9 (Mock.semantics _)
      (bids Scenario.closed)
      (@decrypt Scenario.F_5_15_9 (Mock.semantics _) maxBid) winner.
Proof.
  assert (Hok :
    findHighestBidder (Scenario.at_ Scenario.deployer 100) 7 Scenario.closed
    = Ok (Scenario.requested,
          [DecryptionRequested 7 1
             (stateHash (decryptionContextOf Scenario.requested 7))]))
    by reflexivity.
  split; [exact Hok |].
  exact (proj1 (proj2 tournament_true_maximum_last_wins)
           Scenario.F_5_15_9 (Mock.semantics _) _ _ _ _ _ Hok).
Defined.

(** C10. A successful [findHighestBidder] leaves the ledger,
    [currentBatchId], [batchOpen], [owner], the providers, [paused],
    [cooldownSeconds] (and the submission timestamps) as they were.
    It writes the decryption context of the request id it was given
    and the caller's last-decryption-request timestamp; every other
    context and every other caller's timestamp is unchanged. *)
Theorem findHighestBidder_frame :
  forall (F : FHEVM) (env : Env) (requestId : Z)
         (s s' : State F) (evs : list (Event F)),
    findHighestBidder env requestId s = Ok (s', evs) ->
    bids s' = bids s /\
    currentBatchId s' = currentBatchId s /\
    batchOpen s' = batchOpen s /\
    owner s' = owner s /\
    isProvider s' = isProvider s /\
    paused s' = paused s /\
    cooldownSeconds s' = cooldownSeconds s /\
    lastSubmissionTime s' = lastSubmissionTime s /\
    (forall r, r <> requestId ->
               decryptionContexts s' !! r = decryptionContexts s !! r) /\
    (forall a, a <> msg_sender env ->
               lastDecryptionRequestTime s' !! a
               = lastDecryptionRequestTime s !! a) /\
    batchId (decryptionContextOf s' requestId) = currentBatchId s /\
    processed (decryptionContextOf s' requestId) = false /\
    lastDecryptionRequestTimeOf s' (msg_sender env) = block_timestamp env.
Proof.
  intros F env requestId s s' evs Hok.
  apply findHighestBidder_success in Hok as (first & rest & Hbids & -> & _).
  unfold decryptionContextOf, lastDecryptionRequestTimeOf; cbn.
  repeat (split; [reflexivity |]).
  split; [intros r Hr; now rewrite lookup_insert_ne |].
  split; [intros a Ha; now rewrite lookup_insert_ne |].
  rewrite !lookup_insert_eq. repeat split.
Qed.

Lemma findHighestBidder_frame_witness :
  findHighestBidder (Scenario.at_ Scenario.deployer 100) 7 Scenario.closed
  = Ok (Scenario.requested,
        [DecryptionRequested 7 1
           (stateHash (decryptionContextOf Scenario.requested 7))]) /\
  bids Scenario.requested = bids Scenario.closed /\
  currentBatchId Scenario.requested = currentBatchId Scenario.closed /\
  batchOpen Scenario.requested = batchOpen Scenario.closed /\
  owner Scenario.requested = owner Scenario.closed /\
  isProvider Scenario.requested = isProvider Scenario.closed /\
  paused Scenario.requested = paused Scenario.closed /\
  cooldownSeconds Scenario.requested = cooldownSeconds Scenario.closed /\
  lastSubmissionTime Scenario.requested = lastSubmissionTime Scenario.closed.
Proof.
  assert (Hok :
    findHighestBidder (Scenario.at_ Scenario.deployer 100) 7 Scenario.closed
    = Ok (Scenario.requested,
          [DecryptionRequested 7 1
             (stateHash (decryptionContextOf Scenario.requested 7))]))
    by reflexivity.
  split; [exact Hok |].
  destruct (findHighestBidder_frame Scenario.F_5_15_9 _ _ _ _ _ Hok)
    as (H1 & H2 & H3 & H4 & H5 & H6 & H7 & H8 & _).
  repeat split; assumption.
Defined.

(** ** The callback's ledger check *)

Section LedgerCheck.
Context {F : FHEVM}.

Lemma myCallback_empty_ledger (env : Env) (requestId : Z)
  (cleartexts proof : list Z) (s : State F) :
  processed (decryptionContextOf s requestId) = false ->
  bids s = [] ->
  myCallback env requestId cleartexts proof s = Revert NoBidsInBatch.
Proof.
  intros Hp Hb. unfold myCallback, guard, bindR. now rewrite Hp, Hb.
Qed.

Lemma myCallback_mismatch (env : Env) (requestId : Z)
  (cleartexts proof : list Z) (s : State F) (first : Bid F)
  (rest : list (Bid F)) :
  processed (decryptionContextOf s requestId) = false ->
  bids s = first :: rest ->
  _hashCiphertexts (tournament_cts (tournament first rest))
  <> stateHash (decryptionContextOf s requestId) ->
  myCallback env requestId cleartexts proof s = Revert StateMismatch.
Proof.
  intros Hp Hb Hh. unfold myCallback, guard, bindR. rewrite Hp, Hb; cbn.
  apply Z.eqb_neq in Hh. now rewrite Hh.
Qed.

Lemma myCallback_match (env : Env) (requestId : Z)
  (cleartexts proof : list Z) (s : State F) (first : Bid F)
  (rest : list (Bid F)) :
  bids s = first :: rest ->
  _hashCiphertexts (tournament_cts (tournament first rest))
  = stateHash (decryptionContextOf s requestId) ->
  myCallback env requestId cleartexts proof s <> Revert StateMismatch.
Proof.
  intros Hb Hh. unfold myCallback, guard, bindR. rewrite Hb.
  apply Z.eqb_eq in Hh. rewrite Hh.
  destruct (processed _); cbn; [discriminate |].
  destruct (checkSignatures _ _ _); [| discriminate].
  destruct (abi_decode_uint32 cleartexts) as [v | e] eqn:Hd; cbn;
    [discriminate |].
  unfold abi_decode_uint32 in Hd. repeat case_match; congruence.
Qed.

End LedgerCheck.

(** C3 (as the code has it). For a request that is not yet processed:
    if the ledger is empty at callback time the callback reverts with
    [NoBidsInBatch], and this is what happens when a new batch is opened
    after [findHighestBidder]; if the ledger is not empty, the callback
    reverts with [StateMismatch] when the fingerprint recomputed from
    the tournament over the ledger as it is at callback time differs
    from the stored one, and does not revert with [StateMismatch] when
    the two agree. *)
Theorem callback_detects_changed_fingerprint :
  forall (F : FHEVM),
    (forall (env : Env) (requestId : Z) (cleartexts proof : list Z)
            (s : State F),
        processed (decryptionContextOf s requestId) = false ->
        match bids s with
        | [] =>
            myCallback env requestId cleartexts proof s = Revert NoBidsInBatch
        | first :: rest =>
            (_hashCiphertexts (tournament_cts (tournament first rest))
             <> stateHash (decryptionContextOf s requestId) ->
             myCallback env requestId cleartexts proof s
             = Revert StateMismatch) /\
            (_hashCiphertexts (tournament_cts (tournament first rest))
             = stateHash (decryptionContextOf s requestId) ->
             myCallback env requestId cleartexts proof s
             <> Revert StateMismatch)
        end) /\
    (forall (env1 env2 env : Env) (requestId : Z) (cleartexts proof : list Z)
            (s s1 s2 : State F) (evs1 evs2 : list (Event F)),
        findHighestBidder env1 requestId s = Ok (s1, evs1) ->
        openBatch env2 s1 = Ok (s2, evs2) ->
        myCallback env requestId cleartexts proof s2 = Revert NoBidsInBatch).
Proof.
  intros F. split.
  - intros env requestId cleartexts proof s Hp.
    destruct (bids s) as [| first rest] eqn:Hb.
    + now apply myCallback_empty_ledger.
    + split; intros Hh.
      * now apply (myCallback_mismatch _ _ _ _ _ first rest).
      * now apply (myCallback_match _ _ _ _ _ first rest).
  - intros env1 env2 env requestId cleartexts proof s s1 s2 evs1 evs2 Hreq Hopen.
    apply findHighestBidder_success in Hreq as (first & rest & _ & -> & _).
    apply openBatch_success in Hopen as (_ & _ & _ & -> & _).
    apply myCallback_empty_ledger; [| reflexivity].
    unfold decryptionContextOf; cbn. now rewrite lookup_insert_eq.
Qed.

Lemma callback_detects_changed_fingerprint_witness :
  findHighestBidder (Scenario.at_ Scenario.deployer 100) 7 Scenario.closed
  = Ok (Scenario.requested,
        [DecryptionRequested 7 1
           (stateHash (decryptionContextOf Scenario.requested 7))]) /\
  openBatch (Scenario.at_ Scenario.deployer 100) Scenario.requested
  = Ok (Scenario.reopened, [BatchOpened 2]) /\
  myCallback (Scenario.at_ Scenario.outsider 100) 7
    Scenario.oracle_cleartexts Scenario.oracle_proof Scenario.reopened
  = Revert NoBidsInBatch.
Proof.
  assert (Hreq :
    findHighestBidder (Scenario.at_ Scenario.deployer 100) 7 Scenario.closed
    = Ok (Scenario.requested,
          [DecryptionRequested 7 1
             (stateHash (decryptionContextOf Scenario.requested 7))]))
    by reflexivity.
  assert (Hopen :
    openBatch (Scenario.at_ Scenario.deployer 100) Scenario.requested
    = Ok (Scenario.reopened, [BatchOpened 2])) by reflexivity.
  split; [exact Hreq |]. split; [exact Hopen |].
  exact (proj2 (callback_detects_changed_fingerprint Scenario.F_5_15_9)
           _ _ _ _ _ _ _ _ _ _ _ Hreq Hopen).
Defined.

(** C3 as stated fails. A new batch opened between the request and its
    callback makes the callback revert with [NoBidsInBatch], not
    [StateMismatch]; and a bid added to the still-open batch after the
    request, below the maximum, changes the ledger but not the
    fingerprint, so the callback settles. *)
Lemma callback_after_ledger_change_not_StateMismatch :
  (openBatch (Scenario.at_ Scenario.deployer 100) Scenario.requested
   = Ok (Scenario.reopened, [BatchOpened 2]) /\
   length (bids Scenario.requested) = 3%nat /\
   bids Scenario.reopened = [] /\
   myCallback (Scenario.at_ Scenario.outsider 100) 7
     Scenario.oracle_cleartexts Scenario.oracle_proof Scenario.reopened
   = Revert NoBidsInBatch) /\
  (submitBid (Scenario.at_ Scenario.A 200) (1 : @euint32 Scenario.F_5_15_9)
     Scenario.requested_open
   = Ok (Scenario.late_bid,
         [@BidSubmitted Scenario.F_5_15_9 Scenario.A 1 1]) /\
   length (bids Scenario.requested_open) = 3%nat /\
   length (bids Scenario.late_bid) = 4%nat /\
   myCallback (Scenario.at_ Scenario.outsider 200) 7
     Scenario.oracle_cleartexts Scenario.oracle_proof Scenario.late_bid
   = Ok (mark_processed 7 Scenario.late_bid,
         [AuctionSettled 7 1 Scenario.B 15])).
Proof.
  split; repeat (split; [reflexivity |]); reflexivity.
Qed.

(** ** Guards: role, pause, cooldown *)

Section Guards.
Context {F : FHEVM}.

(** The role modifier is the first one of every function that has
    one: when it rejects the caller, that is the call's result. *)
Lemma role_checked_first (env : Env) (c : Call F) (s : State F) (e : Error) :
  roleCheck env c s = Revert e -> exec env c s = Revert e.
Proof.
  intros Hrole.
  destruct c; cbn in Hrole; try discriminate Hrole;
    unfold_ops; now rewrite Hrole.
Qed.

(** [whenNotPaused] comes second, on the functions that carry it. *)
Lemma pause_checked_second (env : Env) (c : Call F) (s : State F) :
  roleCheck env c s = Ok tt ->
  hasWhenNotPaused c = true ->
  paused s = true ->
  exec env c s = Revert PausedError.
Proof.
  intros Hrole Hgated Hp.
  destruct c; cbn in Hrole, Hgated; try discriminate Hgated;
    unfold_ops; now rewrite Hrole, Hp.
Qed.

(** The functions without [whenNotPaused] never revert with
    [PausedError]. *)
Lemma ungated_never_PausedError (env : Env) (c : Call F) (s : State F) :
  hasWhenNotPaused c = false ->
  exec env c s <> Revert PausedError.
Proof.
  intros Hgated.
  destruct c; cbn in Hgated; try discriminate Hgated;
    unfold_ops; unfold abi_decode_uint32;
    repeat case_match; congruence.
Qed.

Lemma submitBid_cooldown (env : Env) (amount : euint32) (s : State F) :
  isProviderOf s (msg_sender env) = true ->
  paused s = false ->
  lastSubmissionTimeOf s (msg_sender env) + cooldownSeconds s <= MAX_UINT256 ->
  block_timestamp env
  < lastSubmissionTimeOf s (msg_sender env) + cooldownSeconds s ->
  submitBid env amount s = Revert CooldownActive.
Proof.
  intros Hprov Hp Hfit Hearly. unfold submitBid; unfold_modifiers.
  rewrite Hprov, Hp; cbn.
  destruct (Z.leb_spec (lastSubmissionTimeOf s (msg_sender env)
                        + cooldownSeconds s) MAX_UINT256); [| lia].
  destruct (Z.ltb_spec (block_timestamp env)
              (lastSubmissionTimeOf s (msg_sender env) + cooldownSeconds s));
    [reflexivity | lia].
Qed.

Lemma submitBid_cooldown_overflow (env : Env) (amount : euint32) (s : State F) :
  isProviderOf s (msg_sender env) = true ->
  paused s = false ->
  MAX_UINT256 < lastSubmissionTimeOf s (msg_sender env) + cooldownSeconds s ->
  submitBid env amount s = Revert (Panic 17).
Proof.
  intros Hprov Hp Hover. unfold submitBid; unfold_modifiers.
  rewrite Hprov, Hp; cbn.
  destruct (Z.leb_spec (lastSubmissionTimeOf s (msg_sender env)
                        + cooldownSeconds s) MAX_UINT256); [lia | reflexivity].
Qed.

Lemma submitBid_ok (env : Env) (amount : euint32) (s : State F) :
  isProviderOf s (msg_sender env) = true ->
  paused s = false ->
  lastSubmissionTimeOf s (msg_sender env) + cooldownSeconds s
  <= block_timestamp env ->
  block_timestamp env <= MAX_UINT256 ->
  batchOpen s = true ->
  isInitialized amount = true ->
  submitBid env amount s
  = Ok (set_bids (bids s ++ [{| bidder := msg_sender env;
                                encryptedBidAmount := amount |}])
          (set_lastSubmissionTime (msg_sender env) (block_timestamp env) s),
        [BidSubmitted (msg_sender env) (currentBatchId s) amount]).
Proof.
  intros Hprov Hp Hlate Hnow Hopen Hinit. unfold submitBid; unfold_modifiers.
  rewrite Hprov, Hp, Hopen, Hinit; cbn.
  destruct (Z.leb_spec (lastSubmissionTimeOf s (msg_sender env)
                        + cooldownSeconds s) MAX_UINT256); [| lia].
  destruct (Z.ltb_spec (block_timestamp env)
              (lastSubmissionTimeOf s (msg_sender env) + cooldownSeconds s));
    [lia | reflexivity].
Qed.

Lemma submitBid_success (env : Env) (amount : euint32) (s s' : State F)
  (evs : list (Event F)) :
  submitBid env amount s = Ok (s', evs) ->
  isProviderOf s (msg_sender env) = true /\
  paused s = false /\
  lastSubmissionTimeOf s (msg_sender env) + cooldownSeconds s
  <= block_timestamp env /\
  batchOpen s = true /\
  isInitialized amount = true /\
  s' = set_bids (bids s ++ [{| bidder := msg_sender env;
                               encryptedBidAmount := amount |}])
         (set_lastSubmissionTime (msg_sender env) (block_timestamp env) s) /\
  evs = [BidSubmitted (msg_sender env) (currentBatchId s) amount].
Proof.
  unfold submitBid; unfold_modifiers.
  destruct (isProviderOf s (msg_sender env)); [| discriminate].
  destruct (paused s); [discriminate |]. cbn.
  destruct (Z.leb_spec (lastSubmissionTimeOf s (msg_sender env)
                        + cooldownSeconds s) MAX_UINT256); [| discriminate].
  destruct (Z.ltb_spec (block_timestamp env)
              (lastSubmissionTimeOf s (msg_sender env) + cooldownSeconds s));
    [discriminate |]. cbn.
  destruct (batchOpen s); [| discriminate].
  destruct (isInitialized amount); [| discriminate]. cbn.
  intros Hok; injection Hok as <- <-. repeat split. lia.
Qed.

Lemma findHighestBidder_cooldown (env : Env) (requestId : Z) (s : State F) :
  msg_sender env = owner s ->
  paused s = false ->
  lastDecryptionRequestTimeOf s (msg_sender env) + cooldownSeconds s
  <= MAX_UINT256 ->
  block_timestamp env
  < lastDecryptionRequestTimeOf s (msg_sender env) + cooldownSeconds s ->
  findHighestBidder env requestId s = Revert CooldownActive.
Proof.
  intros Hown Hp Hfit Hearly. unfold findHighestBidder; unfold_modifiers.
  rewrite Hown, Z.eqb_refl, Hp; cbn. rewrite <- Hown.
  destruct (Z.leb_spec (lastDecryptionRequestTimeOf s (msg_sender env)
                        + cooldownSeconds s) MAX_UINT256); [| lia].
  destruct (Z.ltb_spec (block_timestamp env)
              (lastDecryptionRequestTimeOf s (msg_sender env)
               + cooldownSeconds s)); [reflexivity | lia].
Qed.

End Guards.

(** C4 (as the code has it). While the contract is paused, [pause],
    [openBatch], [closeBatch] and [findHighestBidder] called by the
    owner, and [submitBid] called by a provider, revert with
    [PausedError]. [addProvider], [removeProvider] and
    [setCooldownSeconds] carry no pause check: called by the owner
    while paused they take effect; like [transferOwnership], [unpause]
    and the callback they never revert with [PausedError]. *)
Theorem pause_blocks_only_gated_operations :
  forall (F : FHEVM) (env : Env) (s : State F),
    paused s = true ->
    (msg_sender env = owner s ->
     pause env s = Revert PausedError /\
     openBatch env s = Revert PausedError /\
     closeBatch env s = Revert PausedError /\
     (forall requestId, findHighestBidder env requestId s = Revert PausedError)) /\
    (isProviderOf s (msg_sender env) = true ->
     forall amount, submitBid env amount s = Revert PausedError) /\
    (msg_sender env = owner s ->
     forall provider n,
       addProvider env provider s
       = (if isProviderOf s provider then Ok (s, [])
          else Ok (set_isProvider provider true s, [ProviderAdded provider])) /\
       removeProvider env provider s
       = (if isProviderOf s provider
          then Ok (set_isProvider provider false s, [ProviderRemoved provider])
          else Ok (s, [])) /\
       (0 < n ->
        setCooldownSeconds env n s
        = Ok (set_cooldownSeconds n s,
              [CooldownSecondsSet (cooldownSeconds s) n]))) /\
    (forall c, hasWhenNotPaused c = false -> exec env c s <> Revert PausedError).
Proof.
  intros F env s Hp. split; [| split; [| split]].
  - intros Hown.
    assert (Hrole : onlyOwner env s = Ok tt)
      by (unfold onlyOwner, guard; now rewrite Hown, Z.eqb_refl).
    repeat split; intros;
      unfold pause, openBatch, closeBatch, findHighestBidder;
      rewrite Hrole; unfold whenNotPaused, guard; now rewrite Hp.
  - intros Hprov amount. unfold submitBid, onlyProvider, whenNotPaused, guard.
    now rewrite Hprov, Hp.
  - intros Hown provider n.
    assert (Hrole : onlyOwner env s = Ok tt)
      by (unfold onlyOwner, guard; now rewrite Hown, Z.eqb_refl).
    unfold addProvider, removeProvider, setCooldownSeconds. rewrite Hrole; cbn.
    repeat split.
    + now destruct (isProviderOf s provider).
    + intros Hn. unfold guard. apply Z.ltb_lt in Hn. now rewrite Hn.
  - intros c. apply ungated_never_PausedError.
Qed.

Lemma pause_blocks_only_gated_operations_witness :
  paused Scenario.paused_state = true /\
  openBatch (Scenario.at_ Scenario.deployer 100) Scenario.paused_state
  = Revert PausedError /\
  submitBid (Scenario.at_ Scenario.deployer 100)
    (1 : @euint32 Scenario.F_5_15_9) Scenario.paused_state
  = Revert PausedError.
Proof.
  assert (Hp : paused Scenario.paused_state = true) by reflexivity.
  destruct (pause_blocks_only_gated_operations Scenario.F_5_15_9
              (Scenario.at_ Scenario.deployer 100) Scenario.paused_state Hp)
    as (Howner & Hprovider & _).
  split; [exact Hp |]. split.
  - exact (proj1 (proj2 (Howner eq_refl))).
  - exact (Hprovider eq_refl 1).
Defined.

(** C4 as stated fails: on a paused contract the owner's
    [addProvider], [removeProvider] and [setCooldownSeconds] succeed. *)
Lemma owner_configuration_succeeds_while_paused :
  paused Scenario.paused_state = true /\
  addProvider (Scenario.at_ Scenario.deployer 100) Scenario.A
    Scenario.paused_state
  = Ok (set_isProvider Scenario.A true Scenario.paused_state,
        [ProviderAdded Scenario.A]) /\
  removeProvider (Scenario.at_ Scenario.deployer 100) Scenario.deployer
    Scenario.paused_state
  = Ok (set_isProvider Scenario.deployer false Scenario.paused_state,
        [ProviderRemoved Scenario.deployer]) /\
  setCooldownSeconds (Scenario.at_ Scenario.deployer 100) 30
    Scenario.paused_state
  = Ok (set_cooldownSeconds 30 Scenario.paused_state,
        [CooldownSecondsSet 60 30]).
Proof. repeat (split; [reflexivity |]); reflexivity. Qed.

(** C5 (as the code has it). The guards run in the order the modifiers
    are listed: the role first ([NotOwner] / [NotProvider], whatever
    the pause state), then the pause state ([PausedError]), then, for
    [submitBid] and [findHighestBidder], the cooldown
    ([CooldownActive], the checked sum staying in range), before the
    function body. In particular a caller who is not a provider gets
    [NotProvider] from [submitBid] even while the contract is paused;
    [PausedError] is what a provider gets. *)
Theorem guards_checked_role_pause_cooldown :
  forall (F : FHEVM) (env : Env) (s : State F),
    (forall c e, roleCheck env c s = Revert e -> exec env c s = Revert e) /\
    (forall c, roleCheck env c s = Ok tt -> hasWhenNotPaused c = true ->
               paused s = true -> exec env c s = Revert PausedError) /\
    (forall amount,
        (isProviderOf s (msg_sender env) = false ->
         submitBid env amount s = Revert NotProvider) /\
        (isProviderOf s (msg_sender env) = true -> paused s = true ->
         submitBid env amount s = Revert PausedError) /\
        (isProviderOf s (msg_sender env) = true -> paused s = false ->
         lastSubmissionTimeOf s (msg_sender env) + cooldownSeconds s
         <= MAX_UINT256 ->
         block_timestamp env
         < lastSubmissionTimeOf s (msg_sender env) + cooldownSeconds s ->
         submitBid env amount s = Revert CooldownActive)) /\
    (forall requestId,
        (msg_sender env <> owner s ->
         findHighestBidder env requestId s = Revert NotOwner) /\
        (msg_sender env = owner s -> paused s = true ->
         findHighestBidder env requestId s = Revert PausedError) /\
        (msg_sender env = owner s -> paused s = false ->
         lastDecryptionRequestTimeOf s (msg_sender env) + cooldownSeconds s
         <= MAX_UINT256 ->
         block_timestamp env
         < lastDecryptionRequestTimeOf s (msg_sender env) + cooldownSeconds s ->
         findHighestBidder env requestId s = Revert CooldownActive)).
Proof.
  intros F env s. split; [| split; [| split]].
  - intros c e. apply role_checked_first.
  - intros c. apply pause_checked_second.
  - intros amount. split; [| split].
    + intros Hprov.
      apply (role_checked_first env (SubmitBid amount)); cbn.
      unfold onlyProvider, guard. now rewrite Hprov.
    + intros Hprov Hp.
      apply (pause_checked_second env (SubmitBid amount));
        [cbn; unfold onlyProvider, guard; now rewrite Hprov | reflexivity
        | exact Hp].
    + apply submitBid_cooldown.
  - intros requestId. split; [| split].
    + intros Hown.
      apply (role_checked_first env (FindHighestBidder requestId)); cbn.
      unfold onlyOwner, guard. apply Z.eqb_neq in Hown. now rewrite Hown.
    + intros Hown Hp.
      apply (pause_checked_second env (FindHighestBidder requestId));
        [cbn; unfold onlyOwner, guard; now rewrite Hown, Z.eqb_refl
        | reflexivity | exact Hp].
    + apply findHighestBidder_cooldown.
Qed.

Lemma guards_checked_role_pause_cooldown_witness :
  (isProviderOf Scenario.paused_state Scenario.deployer = true /\
   paused Scenario.paused_state = true) /\
  submitBid (Scenario.at_ Scenario.deployer 100)
    (1 : @euint32 Scenario.F_5_15_9) Scenario.paused_state
  = Revert PausedError.
Proof.
  split; [split; reflexivity |].
  exact (proj1 (proj2 (proj1 (proj2 (proj2
           (guards_checked_role_pause_cooldown Scenario.F_5_15_9
              (Scenario.at_ Scenario.deployer 100) Scenario.paused_state)))
           1)) eq_refl eq_refl).
Defined.

(** C5 as stated fails: on a paused contract [submitBid] from a caller
    who is not a provider reverts with [NotProvider]. *)
Lemma submitBid_paused_nonprovider_is_NotProvider :
  paused Scenario.paused_state = true /\
  isProviderOf Scenario.paused_state Scenario.outsider = false /\
  submitBid (Scenario.at_ Scenario.outsider 100)
    (1 : @euint32 Scenario.F_5_15_9) Scenario.paused_state
  = Revert NotProvider.
Proof. repeat (split; [reflexivity |]); reflexivity. Qed.

(** ** Submission cooldown *)

(** C7 (as the code has it). For a caller who is a provider of an
    unpaused contract, with [lastSubmissionTime[caller] +
    cooldownSeconds] within uint256: a [submitBid] at a time strictly
    before that sum reverts with [CooldownActive]; at or after it, with
    the batch open and the handle initialised, it succeeds, appends the
    bid and sets the caller's last-submission timestamp to the block
    time, so that a next submission of the caller before that time
    plus [cooldownSeconds] reverts with [CooldownActive] again. *)
Theorem submitBid_cooldown_window :
  forall (F : FHEVM) (env : Env) (amount : euint32) (s : State F),
    isProviderOf s (msg_sender env) = true ->
    paused s = false ->
    lastSubmissionTimeOf s (msg_sender env) + cooldownSeconds s
    <= MAX_UINT256 ->
    (block_timestamp env
     < lastSubmissionTimeOf s (msg_sender env) + cooldownSeconds s ->
     submitBid env amount s = Revert CooldownActive) /\
    (lastSubmissionTimeOf s (msg_sender env) + cooldownSeconds s
     <= block_timestamp env ->
     block_timestamp env <= MAX_UINT256 ->
     batchOpen s = true ->
     isInitialized amount = true ->
     exists s',
       submitBid env amount s
       = Ok (s', [BidSubmitted (msg_sender env) (currentBatchId s) amount]) /\
       bids s' = bids s ++ [{| bidder := msg_sender env;
                               encryptedBidAmount := amount |}] /\
       lastSubmissionTimeOf s' (msg_sender env) = block_timestamp env /\
       (forall env2 amount2,
           msg_sender env2 = msg_sender env ->
           block_timestamp env + cooldownSeconds s <= MAX_UINT256 ->
           block_timestamp env2 < block_timestamp env + cooldownSeconds s ->
           submitBid env2 amount2 s' = Revert CooldownActive)).
Proof.
  intros F env amount s Hprov Hp Hfit. split.
  - now apply submitBid_cooldown.
  - intros Hlate Hnow Hopen Hinit.
    eexists. split; [now apply submitBid_ok |].
    assert (Hlast :
      lastSubmissionTimeOf
        (set_bids (bids s ++ [{| bidder := msg_sender env;
                                 encryptedBidAmount := amount |}])
           (set_lastSubmissionTime (msg_sender env) (block_timestamp env) s))
        (msg_sender env) = block_timestamp env).
    { unfold lastSubmissionTimeOf; cbn. now rewrite lookup_insert_eq. }
    split; [reflexivity |]. split; [exact Hlast |].
    intros env2 amount2 Hsame Hfit2 Hearly.
    apply submitBid_cooldown; rewrite ?Hsame, ?Hlast; cbn; assumption.
Qed.

Lemma submitBid_cooldown_window_witness :
  submitBid (Scenario.at_ Scenario.A 159) (1 : @euint32 Scenario.F_5_15_9)
    Scenario.after_setup
  = Revert CooldownActive /\
  exists s',
    submitBid (Scenario.at_ Scenario.A 160) (1 : @euint32 Scenario.F_5_15_9)
      Scenario.after_setup
    = Ok (s', [@BidSubmitted Scenario.F_5_15_9 Scenario.A 1 1]) /\
    lastSubmissionTimeOf s' Scenario.A = 160.
Proof.
  assert (Hprov : isProviderOf Scenario.after_setup Scenario.A = true)
    by reflexivity.
  assert (Hp : paused Scenario.after_setup = false) by reflexivity.
  assert (Hfit : lastSubmissionTimeOf Scenario.after_setup Scenario.A
                 + cooldownSeconds Scenario.after_setup <= MAX_UINT256)
    by (intros Hgt; discriminate Hgt).
  split.
  - apply (proj1 (submitBid_cooldown_window Scenario.F_5_15_9
                    (Scenario.at_ Scenario.A 159) 1 Scenario.after_setup
                    Hprov Hp Hfit)).
    reflexivity.
  - destruct (proj2 (submitBid_cooldown_window Scenario.F_5_15_9
                       (Scenario.at_ Scenario.A 160) 1 Scenario.after_setup
                       Hprov Hp Hfit))
      as (s' & Hok & _ & Hlast & _);
      [intros Hgt; discriminate Hgt | intros Hgt; discriminate Hgt
      | reflexivity | reflexivity |].
    exists s'. split; [exact Hok | exact Hlast].
Defined.

(** C7 as stated fails where the sum leaves the uint256 range: with
    [cooldownSeconds] set to 2^256-1 after A's bid at time 100, A's
    next [submitBid] at time 101, which is before 100 + (2^256-1),
    reverts with the arithmetic panic of the checked addition, not
    with [CooldownActive]. It also fails for a caller who is no longer
    a provider: the role check comes first, and A's next [submitBid]
    within the window reverts with [NotProvider]. *)
Lemma submitBid_cooldown_sum_overflow_panics :
  (isProviderOf Scenario.huge_cooldown Scenario.A = true /\
   paused Scenario.huge_cooldown = false /\
   batchOpen Scenario.huge_cooldown = true /\
   lastSubmissionTimeOf Scenario.huge_cooldown Scenario.A = 100 /\
   cooldownSeconds Scenario.huge_cooldown = MAX_UINT256 /\
   101 < 100 + MAX_UINT256 /\
   submitBid (Scenario.at_ Scenario.A 101) (1 : @euint32 Scenario.F_5_15_9)
     Scenario.huge_cooldown
   = Revert (Panic 17)) /\
  (lastSubmissionTimeOf Scenario.A_removed Scenario.A = 100 /\
   cooldownSeconds Scenario.A_removed = 60 /\
   submitBid (Scenario.at_ Scenario.A 101) (1 : @euint32 Scenario.F_5_15_9)
     Scenario.A_removed
   = Revert NotProvider).
Proof. split; repeat (split; [reflexivity |]); reflexivity. Qed.

(** ** Running a script *)

Section Scripts.
Context {F : FHEVM}.

Lemma run_all_cons (env : Env) (c : Call F) (txs : list (Env * Call F))
  (s s' : State F) (evs : list (Event F)) :
  exec env c s = Ok (s', evs) ->
  run_all ((env, c) :: txs) s
  = (let! r := run_all txs s' in Ok (fst r, evs ++ snd r)).
Proof. intros Hex. cbn [run_all]. now rewrite Hex. Qed.

Lemma run_all_app (txs1 txs2 : list (Env * Call F)) (s : State F) :
  run_all (txs1 ++ txs2) s
  = (let! r1 := run_all txs1 s in
     let! r2 := run_all txs2 (fst r1) in
     Ok (fst r2, snd r1 ++ snd r2)).
Proof.
  revert s. induction txs1 as [| [env c] txs1 IH]; intros s; cbn [app run_all].
  - cbn [bindR fst snd app].
    destruct (run_all txs2 s) as [[s2 evs2] |]; reflexivity.
  - destruct (exec env c s) as [[s1 evs1] |]; cbn [bindR fst snd];
      [| reflexivity].
    rewrite IH.
    destruct (run_all txs1 s1) as [[s' evs'] |]; cbn [bindR fst snd];
      [| reflexivity].
    destruct (run_all txs2 s') as [[s'' evs''] |]; cbn [bindR fst snd];
      [| reflexivity].
    now rewrite app_assoc.
Qed.

Lemma addProvider_new (env : Env) (provider : Z) (s : State F) :
  msg_sender env = owner s ->
  isProviderOf s provider = false ->
  addProvider env provider s
  = Ok (set_isProvider provider true s, [ProviderAdded provider]).
Proof.
  intros Hown Hnew. unfold addProvider, onlyOwner, guard, bindR.
  now rewrite Hown, Z.eqb_refl, Hnew.
Qed.

Lemma closeBatch_ok (env : Env) (s : State F) :
  msg_sender env = owner s ->
  paused s = false ->
  batchOpen s = true ->
  closeBatch env s = Ok (set_batchOpen false s, [BatchClosed (currentBatchId s)]).
Proof.
  intros Hown Hp Hopen. unfold closeBatch; unfold_modifiers.
  now rewrite Hown, Z.eqb_refl, Hp, Hopen.
Qed.

Lemma findHighestBidder_ok (env : Env) (requestId : Z) (s : State F)
  (first : Bid F) (rest : list (Bid F)) :
  msg_sender env = owner s ->
  paused s = false ->
  lastDecryptionRequestTimeOf s (msg_sender env) + cooldownSeconds s
  <= block_timestamp env ->
  block_timestamp env <= MAX_UINT256 ->
  bids s = first :: rest ->
  findHighestBidder env requestId s
  = Ok (set_lastDecryptionRequestTime (msg_sender env) (block_timestamp env)
          (set_decryptionContext requestId
             {| batchId := currentBatchId s;
                stateHash :=
                  _hashCiphertexts (tournament_cts (tournament first rest));
                processed := false |} s),
        [DecryptionRequested requestId (currentBatchId s)
           (_hashCiphertexts (tournament_cts (tournament first rest)))]).
Proof.
  intros Hown Hp Hlate Hnow Hbids. unfold findHighestBidder; unfold_modifiers.
  rewrite Hown, Z.eqb_refl, Hp; cbn. rewrite <- Hown.
  destruct (Z.leb_spec (lastDecryptionRequestTimeOf s (msg_sender env)
                        + cooldownSeconds s) MAX_UINT256); [| lia].
  destruct (Z.ltb_spec (block_timestamp env)
              (lastDecryptionRequestTimeOf s (msg_sender env)
               + cooldownSeconds s)); [lia |].
  cbn. now rewrite Hbids.
Qed.

Lemma myCallback_ok (env : Env) (requestId : Z) (cleartexts proof : list Z)
  (s : State F) (first : Bid F) (rest : list (Bid F)) (amount : Z) :
  processed (decryptionContextOf s requestId) = false ->
  bids s = first :: rest ->
  _hashCiphertexts (tournament_cts (tournament first rest))
  = stateHash (decryptionContextOf s requestId) ->
  checkSignatures requestId cleartexts proof = true ->
  abi_decode_uint32 cleartexts = Ok amount ->
  myCallback env requestId cleartexts proof s
  = Ok (mark_processed requestId s,
        [AuctionSettled requestId (batchId (decryptionContextOf s requestId))
           (snd (tournament first rest)) amount]).
Proof.
  intros Hp Hbids Hh Hsig Hdec. unfold myCallback, guard, bindR.
  rewrite Hp, Hbids; cbn. apply Z.eqb_eq in Hh. rewrite Hh, Hsig, Hdec.
  now rewrite batchId_after_mark.
Qed.

End Scripts.

(** ** End to end *)

Section EndToEnd.
Context {F : FHEVM}.

Lemma setup_runs (now : Z) (hA hB hC : euint32) :
  60 <= now <= MAX_UINT256 ->
  isInitialized hA = true -> isInitialized hB = true ->
  isInitialized hC = true ->
  exists s,
    run_all (Scenario.setup now hA hB hC) (Scenario.deployed now)
    = Ok (s, Scenario.setup_events hA hB hC) /\
    bids s = fst (Scenario.ledger hA hB hC) :: snd (Scenario.ledger hA hB hC) /\
    owner s = Scenario.deployer /\ paused s = false /\ batchOpen s = true /\
    currentBatchId s = 1 /\ cooldownSeconds s = 60 /\
    lastDecryptionRequestTime s = ∅ /\ decryptionContexts s = ∅.
Proof.
  intros [Hnow Hmax] HA HB HC. unfold Scenario.setup.
  eexists. split.
  - erewrite run_all_cons;
      [| apply addProvider_new; reflexivity].
    erewrite run_all_cons;
      [| apply addProvider_new; reflexivity].
    erewrite run_all_cons;
      [| apply addProvider_new; reflexivity].
    erewrite run_all_cons;
      [| apply openBatch_ok; [reflexivity | reflexivity |]].
    2: { change (0 < MAX_UINT256). lia. }
    erewrite run_all_cons;
      [| apply submitBid_ok; [reflexivity | reflexivity | | | reflexivity | exact HA]].
    2: { change (0 + 60 <= now). lia. }
    2: { exact Hmax. }
    erewrite run_all_cons;
      [| apply submitBid_ok; [reflexivity | reflexivity | | | reflexivity | exact HB]].
    2: { change (0 + 60 <= now). lia. }
    2: { exact Hmax. }
    erewrite run_all_cons;
      [| apply submitBid_ok; [reflexivity | reflexivity | | | reflexivity | exact HC]].
    2: { change (0 + 60 <= now). lia. }
    2: { exact Hmax. }
    reflexivity.
  - repeat split.
Qed.

Lemma request_runs (now requestId : Z) (hA hB hC : euint32) :
  60 <= now <= MAX_UINT256 ->
  isInitialized hA = true -> isInitialized hB = true ->
  isInitialized hC = true ->
  exists s,
    run_all (Scenario.request now requestId hA hB hC) (Scenario.deployed now)
    = Ok (s, Scenario.request_events requestId hA hB hC) /\
    bids s = fst (Scenario.ledger hA hB hC) :: snd (Scenario.ledger hA hB hC) /\
    decryptionContextOf s requestId
    = {| batchId := 1;
         stateHash := Scenario.fingerprint hA hB hC;
         processed := false |}.
Proof.
  intros Hnow HA HB HC.
  destruct (setup_runs now hA hB hC Hnow HA HB HC)
    as (s & Hrun & Hbids & Hown & Hp & Hopen & Hid & Hcd & Hlast & Hctx).
  unfold Scenario.request. rewrite run_all_app, Hrun. cbn [bindR fst snd].
  erewrite run_all_cons;
    [| apply closeBatch_ok; [rewrite Hown; reflexivity | exact Hp | exact Hopen]].
  erewrite run_all_cons;
    [| apply (findHighestBidder_ok _ _ _ (fst (Scenario.ledger hA hB hC))
                (snd (Scenario.ledger hA hB hC)));
       [cbn; rewrite Hown; reflexivity | exact Hp | | apply Hnow | exact Hbids]].
  2: { unfold lastDecryptionRequestTimeOf; cbn. rewrite Hlast, Hcd.
       rewrite lookup_empty; cbn. lia. }
  cbn [run_all bindR fst snd app]. eexists. split.
  - unfold Scenario.request_events, Scenario.fingerprint.
    cbn [currentBatchId set_batchOpen]. rewrite Hid. reflexivity.
  - split; [exact Hbids |].
    unfold decryptionContextOf; cbn. rewrite lookup_insert_eq; cbn.
    rewrite ?Hid. reflexivity.
Qed.

Lemma end_to_end_runs (now requestId : Z) (hA hB hC : euint32)
  (cleartexts proof : list Z) (amount : Z) :
  60 <= now <= MAX_UINT256 ->
  isInitialized hA = true -> isInitialized hB = true ->
  isInitialized hC = true ->
  checkSignatures requestId cleartexts proof = true ->
  abi_decode_uint32 cleartexts = Ok amount ->
  exists s,
    run_all (Scenario.end_to_end now requestId hA hB hC cleartexts proof)
      (Scenario.deployed now)
    = Ok (s, Scenario.request_events requestId hA hB hC ++
             [AuctionSettled requestId 1
                (snd (tournament (fst (Scenario.ledger hA hB hC))
                                 (snd (Scenario.ledger hA hB hC))))
                amount]) /\
    processed (decryptionContextOf s requestId) = true.
Proof.
  intros Hnow HA HB HC Hsig Hdec.
  destruct (request_runs now requestId hA hB hC Hnow HA HB HC)
    as (s & Hrun & Hbids & Hctx).
  unfold Scenario.end_to_end. rewrite run_all_app, Hrun. cbn [bindR fst snd].
  erewrite run_all_cons;
    [| apply (myCallback_ok _ _ _ _ _ (fst (Scenario.ledger hA hB hC))
                (snd (Scenario.ledger hA hB hC)) amount);
       [now rewrite Hctx | exact Hbids | now rewrite Hctx | exact Hsig
       | exact Hdec]].
  cbn [run_all bindR fst snd app]. eexists. split.
  - rewrite Hctx. reflexivity.
  - apply processed_after_mark.
Qed.

End EndToEnd.

Lemma winner_5_15_9 (F : FHEVM) (S : FHESemantics F) (hA hB hC : euint32) :
  decrypt hA = 5 -> decrypt hB = 15 -> decrypt hC = 9 ->
  snd (tournament (fst (Scenario.ledger hA hB hC))
                  (snd (Scenario.ledger hA hB hC))) = Scenario.B /\
  decrypt (fst (tournament (fst (Scenario.ledger hA hB hC))
                           (snd (Scenario.ledger hA hB hC)))) = 15.
Proof.
  intros HA HB HC. unfold tournament, Scenario.ledger. cbn [fold_left fst snd].
  rewrite !tournament_step_decrypt, !tournament_step_winner,
    !tournament_step_decrypt.
  unfold plaintext; cbn [encryptedBidAmount bidder fst snd].
  rewrite HA, HB, HC. split; reflexivity.
Qed.

Lemma mock_tournament (a b c : Z) :
  a <= b -> c < b ->
  @tournament (Mock.fhevm_of [a; b; c])
    (fst (@Scenario.ledger (Mock.fhevm_of [a; b; c]) 1 2 3))
    (snd (@Scenario.ledger (Mock.fhevm_of [a; b; c]) 1 2 3))
  = (2, Scenario.B).
Proof.
  intros Hab Hcb.
  assert (H1 : Mock.plaintexts [a; b; c] 1 = a) by reflexivity.
  assert (H2 : Mock.plaintexts [a; b; c] 2 = b) by reflexivity.
  assert (H3 : Mock.plaintexts [a; b; c] 3 = c) by reflexivity.
  unfold tournament, Scenario.ledger, tournament_step, Mock.fhevm_of,
    Mock.fhevm.
  cbn [fold_left fst snd encryptedBidAmount bidder FHE_ge FHE_select asBool].
  rewrite H1, H2.
  destruct (Z.leb_spec a b); [| lia].
  rewrite H2, H3.
  destruct (Z.leb_spec b c); [lia |]. reflexivity.
Qed.

(** C8. End to end, on any backend with real comparisons: after the
    deployment, with A, B, C made providers, a batch opened, bids whose
    plaintexts are 5, 15, 9 submitted by A, B, C, the batch closed and
    decryption requested, a callback whose proof verifies and whose
    cleartexts decode to 15 settles: the script emits, after the events
    of the request, [AuctionSettled] with winner B and amount 15, and
    marks the request processed. Of all the events emitted, the
    settlement is the only one carrying a plaintext amount, and the
    amount is the winning 15. On the mock backend the log of the
    events before the settlement is the same for every three amounts
    for which B wins: it does not depend on the amounts. *)
Theorem end_to_end_settlement :
  (forall (F : FHEVM) (S : FHESemantics F) (now requestId : Z)
          (hA hB hC : euint32) (cleartexts proof : list Z),
      60 <= now <= MAX_UINT256 ->
      isInitialized hA = true -> isInitialized hB = true ->
      isInitialized hC = true ->
      decrypt hA = 5 -> decrypt hB = 15 -> decrypt hC = 9 ->
      checkSignatures requestId cleartexts proof = true ->
      abi_decode_uint32 cleartexts = Ok 15 ->
      exists s,
        run_all (Scenario.end_to_end now requestId hA hB hC cleartexts proof)
          (Scenario.deployed now)
        = Ok (s, Scenario.request_events requestId hA hB hC ++
                 [AuctionSettled requestId 1 Scenario.B 15]) /\
        processed (decryptionContextOf s requestId) = true /\
        omap revealedAmount
          (Scenario.request_events requestId hA hB hC ++
           [AuctionSettled requestId 1 Scenario.B 15]) = [15]) /\
  (forall (a b c now requestId : Z),
      60 <= now <= MAX_UINT256 -> a <= b -> c < b ->
      (exists s,
          run_all (@Scenario.request (Mock.fhevm_of [a; b; c]) now requestId
                     1 2 3) (Scenario.deployed now)
          = Ok (s, @Scenario.request_events (Mock.fhevm_of [a; b; c])
                     requestId 1 2 3)) /\
      map event_log
        (@Scenario.request_events (Mock.fhevm_of [a; b; c]) requestId 1 2 3)
      = map event_log
          (@Scenario.request_events Scenario.F_5_15_9 requestId 1 2 3)).
Proof.
  split.
  - intros F S now requestId hA hB hC cleartexts proof
           Hnow HA HB HC H5 H15 H9 Hsig Hdec.
    destruct (end_to_end_runs now requestId hA hB hC cleartexts proof 15
                Hnow HA HB HC Hsig Hdec) as (s & Hrun & Hdone).
    destruct (winner_5_15_9 F S hA hB hC H5 H15 H9) as [Hwin _].
    rewrite Hwin in Hrun.
    exists s. split; [exact Hrun |]. split; [exact Hdone | reflexivity].
  - intros a b c now requestId Hnow Hab Hcb. split.
    + destruct (@request_runs (Mock.fhevm_of [a; b; c]) now requestId 1 2 3
                  Hnow eq_refl eq_refl eq_refl) as (s & Hrun & _).
      exists s. exact Hrun.
    + unfold Scenario.request_events, Scenario.fingerprint, Scenario.F_5_15_9.
      rewrite (mock_tournament a b c Hab Hcb).
      rewrite (mock_tournament 5 15 9) by lia.
      reflexivity.
Qed.

Lemma end_to_end_settlement_witness :
  exists s,
    run_all (@Scenario.end_to_end Scenario.F_5_15_9 100 7 1 2 3
               Scenario.oracle_cleartexts Scenario.oracle_proof)
      Scenario.fresh
    = Ok (s, @Scenario.request_events Scenario.F_5_15_9 7 1 2 3 ++
             [AuctionSettled 7 1 Scenario.B 15]) /\
    processed (decryptionContextOf s 7) = true /\
    omap revealedAmount
      (@Scenario.request_events Scenario.F_5_15_9 7 1 2 3 ++
       [AuctionSettled 7 1 Scenario.B 15]) = [15].
Proof.
  apply (proj1 end_to_end_settlement Scenario.F_5_15_9
           (Mock.semantics (Mock.plaintexts [5; 15; 9])) 100 7 1 2 3
           Scenario.oracle_cleartexts Scenario.oracle_proof);
    try reflexivity.
  split; [lia | apply Z.leb_le; reflexivity].
Defined.

(** * Further properties of the contract *)

(** ** Invariants of the reachable states *)

Section Invariants.
Context {F : FHEVM}.

(** A property kept by every successful transaction holds after any
    sequence of transactions, reverted ones included. *)
Lemma run_preserves (P : State F -> Prop) :
  (forall env c s s' evs, P s -> exec env c s = Ok (s', evs) -> P s') ->
  forall txs s, P s -> P (fst (run txs s)).
Proof.
  intros Hstep txs. induction txs as [| [env c] txs IH]; intros s Hs; cbn.
  - exact Hs.
  - destruct (exec env c s) as [[s' evs] |] eqn:Hex.
    + specialize (IH s' (Hstep _ _ _ _ _ Hs Hex)).
      destruct (run txs s'); exact IH.
    + apply IH, Hs.
Qed.

Lemma exec_owner_nonzero (env : Env) (c : Call F) (s s' : State F)
  (evs : list (Event F)) :
  owner s <> 0 -> exec env c s = Ok (s', evs) -> owner s' <> 0.
Proof.
  intros Hs Hex.
  destruct c;
    try (unfold_ops; repeat case_match; simplify_eq; exact Hs).
  - (* transferOwnership *)
    unfold exec, transferOwnership in Hex. unfold_modifiers.
    destruct (msg_sender env =? owner s); [| discriminate].
    destruct (Z.eqb_spec newOwner 0) as [| Hne]; [discriminate |].
    cbn in Hex. injection Hex as <- _. exact Hne.
Qed.

Lemma exec_cooldown_positive (env : Env) (c : Call F) (s s' : State F)
  (evs : list (Event F)) :
  0 < cooldownSeconds s -> exec env c s = Ok (s', evs) ->
  0 < cooldownSeconds s'.
Proof.
  intros Hs Hex.
  destruct c;
    try (unfold_ops; repeat case_match; simplify_eq; exact Hs).
  - (* setCooldownSeconds *)
    unfold exec, setCooldownSeconds in Hex. unfold_modifiers.
    destruct (msg_sender env =? owner s); [| discriminate].
    destruct (Z.ltb_spec 0 newCooldownSeconds) as [Hpos |]; [| discriminate].
    cbn in Hex. injection Hex as <- _. exact Hpos.
Qed.

Lemma exec_bids_initialized (env : Env) (c : Call F) (s s' : State F)
  (evs : list (Event F)) :
  Forall (fun b => isInitialized (encryptedBidAmount b) = true) (bids s) ->
  exec env c s = Ok (s', evs) ->
  Forall (fun b => isInitialized (encryptedBidAmount b) = true) (bids s').
Proof.
  intros Hs Hex.
  destruct c;
    try (unfold_ops; repeat case_match; simplify_eq; exact Hs).
  - (* openBatch *)
    cbn in Hex. apply openBatch_success in Hex as (_ & _ & _ & -> & _).
    constructor.
  - (* submitBid *)
    cbn in Hex. apply submitBid_success in Hex as (_ & _ & _ & _ & Hinit & -> & _).
    cbn. apply Forall_app. split; [exact Hs |].
    constructor; [exact Hinit | constructor].
  - (* findHighestBidder *)
    cbn in Hex.
    apply findHighestBidder_success in Hex as (first & rest & _ & -> & _).
    exact Hs.
  - (* myCallback *)
    cbn in Hex. apply myCallback_success in Hex as (_ & -> & _). exact Hs.
Qed.

End Invariants.

(** X1. In every state reached from a deployment by a non-zero address,
    whatever transactions were sent, the owner is not the zero
    address. *)
Theorem owner_never_zero :
  forall (F : FHEVM) (env0 : Env) (txs : list (Env * Call F)),
    msg_sender env0 <> 0 ->
    owner (fst (run txs (fst (constructor env0)))) <> 0.
Proof.
  intros F env0 txs Hne.
  apply (run_preserves (fun s => owner s <> 0)); [| exact Hne].
  intros env c s s' evs. apply exec_owner_nonzero.
Qed.

Lemma owner_never_zero_witness :
  msg_sender (Scenario.at_ Scenario.deployer 100) <> 0 /\
  owner (fst (run (@Scenario.request Scenario.F_5_15_9 100 7 1 2 3)
                (fst (constructor (Scenario.at_ Scenario.deployer 100)))))
  <> 0.
Proof.
  assert (Hne : msg_sender (Scenario.at_ Scenario.deployer 100) <> 0)
    by (intros Heq; discriminate Heq).
  split; [exact Hne |].
  exact (owner_never_zero Scenario.F_5_15_9 _ _ Hne).
Defined.

(** X2. In every state reached from a deployment, [cooldownSeconds] is
    positive: it starts at 60 and [setCooldownSeconds] accepts positive
    values only. *)
Theorem cooldownSeconds_always_positive :
  forall (F : FHEVM) (env0 : Env) (txs : list (Env * Call F)),
    0 < cooldownSeconds (fst (run txs (fst (constructor env0)))).
Proof.
  intros F env0 txs.
  apply (run_preserves (fun s => 0 < cooldownSeconds s)); [| cbn; lia].
  intros env c s s' evs. apply exec_cooldown_positive.
Qed.

(** X3. Every bid of the ledger of a reachable state holds an
    initialised ciphertext handle. *)
Theorem ledger_handles_initialized :
  forall (F : FHEVM) (env0 : Env) (txs : list (Env * Call F)),
    Forall (fun b => isInitialized (encryptedBidAmount b) = true)
           (bids (fst (run txs (fst (constructor env0))))).
Proof.
  intros F env0 txs.
  apply (run_preserves
           (fun s => Forall (fun b => isInitialized (encryptedBidAmount b) = true)
                            (bids s))); [| constructor].
  intros env c s s' evs. apply exec_bids_initialized.
Qed.

(** ** Ownership, providers, pause *)

Section Administration.
Context {F : FHEVM}.

Lemma onlyOwner_ok (env : Env) (s : State F) :
  msg_sender env = owner s -> onlyOwner env s = Ok tt.
Proof. intros Hown. unfold onlyOwner, guard. now rewrite Hown, Z.eqb_refl. Qed.

Lemma onlyOwner_rejects (env : Env) (s : State F) :
  msg_sender env <> owner s -> onlyOwner env s = Revert NotOwner.
Proof.
  intros Hne. unfold onlyOwner, guard. apply Z.eqb_neq in Hne. now rewrite Hne.
Qed.

Lemma set_paused_same (s : State F) : set_paused (paused s) s = s.
Proof. now destruct s. Qed.

Lemma set_paused_id (b : bool) (s : State F) :
  paused s = b -> set_paused b s = s.
Proof. intros <-. apply set_paused_same. Qed.

Lemma isProviderOf_set (p q : Z) (v : bool) (s : State F) :
  isProviderOf (set_isProvider p v s) q
  = if decide (p = q) then v else isProviderOf s q.
Proof.
  unfold isProviderOf, set_isProvider; cbn. rewrite lookup_insert.
  now destruct (decide (p = q)).
Qed.

End Administration.

(** X4. [transferOwnership] is for the owner only and refuses the zero
    address. When it succeeds the new owner is the only address that
    passes the owner check: every owner-only function called by anyone
    else, the previous owner included, reverts with [NotOwner]. The
    provider set is untouched: the new owner is not made a provider
    and the previous one stays one. *)
Theorem transferOwnership_hands_over :
  forall (F : FHEVM) (env : Env) (newOwner : Z) (s : State F),
    (msg_sender env <> owner s ->
     transferOwnership env newOwner s = Revert NotOwner) /\
    (msg_sender env = owner s -> newOwner = 0 ->
     transferOwnership env newOwner s
     = Revert (RequireFailed "New owner is zero address")) /\
    (msg_sender env = owner s -> newOwner <> 0 ->
     exists s',
       transferOwnership env newOwner s
       = Ok (s', [OwnershipTransferred (owner s) newOwner]) /\
       owner s' = newOwner /\
       isProvider s' = isProvider s /\
       (forall env', msg_sender env' = newOwner -> onlyOwner env' s' = Ok tt) /\
       (forall env' c,
           msg_sender env' <> newOwner ->
           roleCheck env' c s' = onlyOwner env' s' ->
           exec env' c s' = Revert NotOwner)).
Proof.
  intros F env newOwner s. split; [| split].
  - intros Hne. unfold transferOwnership. now rewrite onlyOwner_rejects.
  - intros Hown ->. unfold transferOwnership. now rewrite onlyOwner_ok.
  - intros Hown Hne. exists (set_owner newOwner s). split; [| split; [| split; [| split]]].
    + unfold transferOwnership. rewrite onlyOwner_ok by exact Hown.
      unfold guard, bindR. apply Z.eqb_neq in Hne. now rewrite Hne.
    + reflexivity.
    + reflexivity.
    + intros env' Hnew. now apply onlyOwner_ok.
    + intros env' c Hother Hrole. apply role_checked_first.
      rewrite Hrole. now apply onlyOwner_rejects.
Qed.

Lemma transferOwnership_hands_over_witness :
  exists s',
    transferOwnership (Scenario.at_ Scenario.deployer 100) Scenario.A
      Scenario.after_setup
    = Ok (s', [OwnershipTransferred Scenario.deployer Scenario.A]) /\
    owner s' = Scenario.A /\
    openBatch (Scenario.at_ Scenario.deployer 200) s' = Revert NotOwner.
Proof.
  destruct (proj2 (proj2 (transferOwnership_hands_over Scenario.F_5_15_9
              (Scenario.at_ Scenario.deployer 100) Scenario.A
              Scenario.after_setup)))
    as (s' & Hok & Hown & _ & _ & Hothers);
    [reflexivity | intros Heq; discriminate Heq |].
  exists s'. split; [exact Hok |]. split; [exact Hown |].
  apply (Hothers (Scenario.at_ Scenario.deployer 200) OpenBatch);
    [intros Heq; discriminate Heq | reflexivity].
Defined.

(** X5. [addProvider] called by the owner makes the address a provider
    and changes no other address; it emits [ProviderAdded] only when
    the address was not a provider, and calling it again changes
    nothing and emits nothing. *)
Theorem addProvider_idempotent :
  forall (F : FHEVM) (env : Env) (provider : Z) (s : State F),
    msg_sender env = owner s ->
    exists s',
      addProvider env provider s
      = Ok (s', if isProviderOf s provider then []
                else [ProviderAdded provider]) /\
      isProviderOf s' provider = true /\
      (forall q, q <> provider -> isProviderOf s' q = isProviderOf s q) /\
      addProvider env provider s' = Ok (s', []).
Proof.
  intros F env provider s Hown.
  unfold addProvider. rewrite onlyOwner_ok by exact Hown. cbn [bindR].
  destruct (isProviderOf s provider) eqn:Hp; cbn [negb].
  - exists s. rewrite onlyOwner_ok by exact Hown. cbn [bindR].
    rewrite Hp. cbn [negb]. auto.
  - exists (set_isProvider provider true s).
    rewrite onlyOwner_ok by exact Hown. cbn [bindR].
    rewrite isProviderOf_set. rewrite decide_True by reflexivity.
    cbn [negb]. repeat split.
    intros q Hq. rewrite isProviderOf_set. now rewrite decide_False by auto.
Qed.

Lemma addProvider_idempotent_witness :
  exists s',
    addProvider (Scenario.at_ Scenario.deployer 100) Scenario.A Scenario.fresh
    = Ok (s', [ProviderAdded Scenario.A]) /\
    isProviderOf s' Scenario.A = true /\
    addProvider (Scenario.at_ Scenario.deployer 100) Scenario.A s'
    = Ok (s', []).
Proof.
  destruct (addProvider_idempotent Scenario.F_5_15_9
              (Scenario.at_ Scenario.deployer 100) Scenario.A Scenario.fresh
              eq_refl) as (s' & Hok & Hp & _ & Hagain).
  exists s'. split; [exact Hok |]. split; [exact Hp | exact Hagain].
Defined.

(** X6. [removeProvider] called by the owner leaves the address not a
    provider and changes no other address; it emits [ProviderRemoved]
    only when the address was a provider, calling it again changes
    nothing and emits nothing, and from then on [submitBid] from that
    address reverts with [NotProvider]. *)
Theorem removeProvider_revokes :
  forall (F : FHEVM) (env : Env) (provider : Z) (s : State F),
    msg_sender env = owner s ->
    exists s',
      removeProvider env provider s
      = Ok (s', if isProviderOf s provider then [ProviderRemoved provider]
                else []) /\
      isProviderOf s' provider = false /\
      (forall q, q <> provider -> isProviderOf s' q = isProviderOf s q) /\
      removeProvider env provider s' = Ok (s', []) /\
      (forall env' amount,
          msg_sender env' = provider ->
          submitBid env' amount s' = Revert NotProvider).
Proof.
  intros F env provider s Hown.
  unfold removeProvider. rewrite onlyOwner_ok by exact Hown. cbn [bindR].
  destruct (isProviderOf s provider) eqn:Hp.
  - exists (set_isProvider provider false s).
    rewrite onlyOwner_ok by exact Hown. cbn [bindR].
    rewrite isProviderOf_set. rewrite decide_True by reflexivity.
    repeat split.
    + intros q Hq. rewrite isProviderOf_set. now rewrite decide_False by auto.
    + intros env' amount Hsender.
      unfold submitBid, onlyProvider, guard, bindR.
      rewrite Hsender, isProviderOf_set. now rewrite decide_True by reflexivity.
  - exists s. rewrite onlyOwner_ok by exact Hown. cbn [bindR]. rewrite Hp.
    repeat split.
    intros env' amount Hsender.
    unfold submitBid, onlyProvider, guard, bindR. now rewrite Hsender, Hp.
Qed.

Lemma removeProvider_revokes_witness :
  exists s',
    removeProvider (Scenario.at_ Scenario.deployer 100) Scenario.A
      Scenario.after_setup
    = Ok (s', [ProviderRemoved Scenario.A]) /\
    submitBid (Scenario.at_ Scenario.A 500) (1 : @euint32 Scenario.F_5_15_9) s'
    = Revert NotProvider.
Proof.
  destruct (removeProvider_revokes Scenario.F_5_15_9
              (Scenario.at_ Scenario.deployer 100) Scenario.A
              Scenario.after_setup eq_refl)
    as (s' & Hok & _ & _ & _ & Hrevoked).
  exists s'. split; [exact Hok |].
  exact (Hrevoked (Scenario.at_ Scenario.A 500) 1 eq_refl).
Defined.

(** X7. For the owner of an unpaused contract [pause] succeeds, a
    second [pause] reverts with [PausedError], and [unpause] brings the
    contract back to exactly the state it had before the pause: ledger,
    batch, roles and request contexts are as they were. [unpause] has
    no precondition on the flag: on an unpaused contract it succeeds,
    changes nothing and still emits [Unpaused]. *)
Theorem pause_unpause_round_trip :
  forall (F : FHEVM) (env : Env) (s : State F),
    msg_sender env = owner s ->
    paused s = false ->
    pause env s = Ok (set_paused true s, [Paused (msg_sender env)]) /\
    pause env (set_paused true s) = Revert PausedError /\
    unpause env (set_paused true s) = Ok (s, [Unpaused (msg_sender env)]) /\
    unpause env s = Ok (s, [Unpaused (msg_sender env)]).
Proof.
  intros F env s Hown Hp.
  assert (Hown' : msg_sender env = owner (set_paused true s)) by exact Hown.
  assert (Hback : set_paused false (set_paused true s) = s)
    by (change (set_paused false s = s); now apply set_paused_id).
  split; [| split; [| split]].
  - unfold pause. rewrite onlyOwner_ok by exact Hown.
    unfold whenNotPaused, guard, bindR. now rewrite Hp.
  - unfold pause. now rewrite onlyOwner_ok by exact Hown'.
  - unfold unpause. rewrite onlyOwner_ok by exact Hown'. cbn [bindR].
    now rewrite Hback.
  - unfold unpause. rewrite onlyOwner_ok by exact Hown. cbn [bindR].
    now rewrite (set_paused_id false s Hp).
Qed.

Lemma pause_unpause_round_trip_witness :
  pause (Scenario.at_ Scenario.deployer 100) Scenario.after_setup
  = Ok (set_paused true Scenario.after_setup, [Paused Scenario.deployer]) /\
  unpause (Scenario.at_ Scenario.deployer 100)
    (set_paused true Scenario.after_setup)
  = Ok (Scenario.after_setup, [Unpaused Scenario.deployer]).
Proof.
  destruct (pause_unpause_round_trip Scenario.F_5_15_9
              (Scenario.at_ Scenario.deployer 100) Scenario.after_setup
              eq_refl eq_refl) as (Hpause & _ & Hback & _).
  split; [exact Hpause | exact Hback].
Defined.

(** ** Batch and ledger *)

(** X8. [closeBatch] by the owner of an unpaused contract reverts with
    [BatchNotOpen] when no batch is open. When one is open it closes
    it, keeps the ledger and the batch id, and emits [BatchClosed] with
    that id; closing again reverts with [BatchNotOpen], and so does a
    [submitBid] from a provider whose cooldown has elapsed. *)
Theorem closeBatch_closes_ledger :
  forall (F : FHEVM) (env : Env) (s : State F),
    msg_sender env = owner s ->
    paused s = false ->
    (batchOpen s = false -> closeBatch env s = Revert BatchNotOpen) /\
    (batchOpen s = true ->
     exists s',
       closeBatch env s = Ok (s', [BatchClosed (currentBatchId s)]) /\
       batchOpen s' = false /\
       bids s' = bids s /\
       currentBatchId s' = currentBatchId s /\
       closeBatch env s' = Revert BatchNotOpen /\
       (forall env' amount,
           isProviderOf s (msg_sender env') = true ->
           lastSubmissionTimeOf s (msg_sender env') + cooldownSeconds s
           <= block_timestamp env' ->
           block_timestamp env' <= MAX_UINT256 ->
           submitBid env' amount s' = Revert BatchNotOpen)).
Proof.
  intros F env s Hown Hp. split.
  - intros Hclosed. unfold closeBatch; unfold_modifiers.
    now rewrite Hown, Z.eqb_refl, Hp, Hclosed.
  - intros Hopen. exists (set_batchOpen false s).
    split; [now apply closeBatch_ok |].
    repeat (split; [reflexivity |]). split.
    + unfold closeBatch; unfold_modifiers.
      cbn [owner paused batchOpen set_batchOpen].
      now rewrite Hown, Z.eqb_refl, Hp.
    + intros env' amount Hprov Hlate Hnow.
      unfold submitBid; unfold_modifiers.
      change (isProviderOf (set_batchOpen false s) (msg_sender env'))
        with (isProviderOf s (msg_sender env')).
      change (lastSubmissionTimeOf (set_batchOpen false s) (msg_sender env'))
        with (lastSubmissionTimeOf s (msg_sender env')).
      cbn [paused cooldownSeconds batchOpen set_batchOpen].
      rewrite Hprov, Hp; cbn.
      destruct (Z.leb_spec (lastSubmissionTimeOf s (msg_sender env')
                            + cooldownSeconds s) MAX_UINT256); [| lia].
      destruct (Z.ltb_spec (block_timestamp env')
                  (lastSubmissionTimeOf s (msg_sender env')
                   + cooldownSeconds s)); [lia | reflexivity].
Qed.

Lemma closeBatch_closes_ledger_witness :
  exists s',
    closeBatch (Scenario.at_ Scenario.deployer 100) Scenario.after_setup
    = Ok (s', [BatchClosed 1]) /\
    bids s' = bids Scenario.after_setup /\
    closeBatch (Scenario.at_ Scenario.deployer 100) s' = Revert BatchNotOpen /\
    submitBid (Scenario.at_ Scenario.A 500) (1 : @euint32 Scenario.F_5_15_9) s'
    = Revert BatchNotOpen.
Proof.
  destruct (proj2 (closeBatch_closes_ledger Scenario.F_5_15_9
              (Scenario.at_ Scenario.deployer 100) Scenario.after_setup
              eq_refl eq_refl) eq_refl)
    as (s' & Hok & _ & Hbids & _ & Hagain & Hsubmit).
  exists s'. split; [exact Hok |]. split; [exact Hbids |].
  split; [exact Hagain |].
  apply (Hsubmit (Scenario.at_ Scenario.A 500) 1);
    [reflexivity | intros Hgt; discriminate Hgt
    | intros Hgt; discriminate Hgt].
Defined.

(** X9. Past its three modifiers, [submitBid] first requires an open
    batch and then an initialised handle: with no batch open it reverts
    with [BatchNotOpen] whatever the handle, and with a batch open an
    uninitialised handle is refused with [BidSubmissionFailed]. *)
Theorem submitBid_body_checks :
  forall (F : FHEVM) (env : Env) (amount : euint32) (s : State F),
    isProviderOf s (msg_sender env) = true ->
    paused s = false ->
    lastSubmissionTimeOf s (msg_sender env) + cooldownSeconds s
    <= block_timestamp env ->
    block_timestamp env <= MAX_UINT256 ->
    (batchOpen s = false -> submitBid env amount s = Revert BatchNotOpen) /\
    (batchOpen s = true -> isInitialized amount = false ->
     submitBid env amount s = Revert BidSubmissionFailed).
Proof.
  intros F env amount s Hprov Hp Hlate Hnow.
  unfold submitBid; unfold_modifiers. rewrite Hprov, Hp; cbn.
  destruct (Z.leb_spec (lastSubmissionTimeOf s (msg_sender env)
                        + cooldownSeconds s) MAX_UINT256); [| lia].
  destruct (Z.ltb_spec (block_timestamp env)
              (lastSubmissionTimeOf s (msg_sender env) + cooldownSeconds s));
    [lia |].
  cbn. split.
  - now intros ->.
  - now intros -> ->.
Qed.

Lemma submitBid_body_checks_witness :
  isInitialized (0 : @euint32 Scenario.F_5_15_9) = false /\
  submitBid (Scenario.at_ Scenario.A 500) (0 : @euint32 Scenario.F_5_15_9)
    Scenario.after_setup
  = Revert BidSubmissionFailed.
Proof.
  split; [reflexivity |].
  apply (proj2 (submitBid_body_checks Scenario.F_5_15_9
                  (Scenario.at_ Scenario.A 500) 0 Scenario.after_setup
                  eq_refl eq_refl
                  (fun Hgt => ltac:(discriminate Hgt))
                  (fun Hgt => ltac:(discriminate Hgt))));
    reflexivity.
Defined.

(** X10. The ledger changes in two ways only. A successful transaction
    other than [openBatch] and [submitBid] leaves it as it was;
    [openBatch] empties it; [submitBid] requires the batch to be open
    and appends exactly one bid, the caller's, at the end. *)
Theorem ledger_append_only :
  forall (F : FHEVM) (env : Env) (c : Call F) (s s' : State F)
         (evs : list (Event F)),
    exec env c s = Ok (s', evs) ->
    match c with
    | OpenBatch => bids s' = []
    | SubmitBid amount =>
        batchOpen s = true /\
        bids s' = bids s ++ [{| bidder := msg_sender env;
                                encryptedBidAmount := amount |}]
    | _ => bids s' = bids s
    end.
Proof.
  intros F env c s s' evs Hex.
  destruct c; cbn [exec] in Hex.
  1-8: unfold_ops; repeat case_match; simplify_eq; reflexivity.
  - apply submitBid_success in Hex as (_ & _ & _ & Hopen & _ & -> & _).
    split; [exact Hopen | reflexivity].
  - apply findHighestBidder_success in Hex as (first & rest & _ & -> & _).
    reflexivity.
  - apply myCallback_success in Hex as (_ & -> & _). reflexivity.
Qed.

Lemma ledger_append_only_witness :
  exists s',
    exec (Scenario.at_ Scenario.A 500)
      (SubmitBid (2 : @euint32 Scenario.F_5_15_9)) Scenario.after_setup
    = Ok (s', [@BidSubmitted Scenario.F_5_15_9 Scenario.A 1 2]) /\
    bids s' = bids Scenario.after_setup
              ++ [{| bidder := Scenario.A;
                     encryptedBidAmount := (2 : @euint32 Scenario.F_5_15_9) |}].
Proof.
  eexists. split; [reflexivity |].
  exact (proj2 (ledger_append_only Scenario.F_5_15_9
                  (Scenario.at_ Scenario.A 500)
                  (SubmitBid (2 : @euint32 Scenario.F_5_15_9))
                  Scenario.after_setup _ _ eq_refl)).
Defined.

(** X11. The batch id never decreases: after any sequence of
    transactions it is at least what it was and has grown by at most
    the number of transactions; a transaction other than [openBatch]
    leaves it unchanged. *)
Theorem currentBatchId_monotone :
  forall (F : FHEVM) (s : State F),
    (forall (txs : list (Env * Call F)),
        currentBatchId s <= currentBatchId (fst (run txs s))
        <= currentBatchId s + Z.of_nat (length txs)) /\
    (forall env c s' evs,
        exec env c s = Ok (s', evs) ->
        c <> OpenBatch ->
        currentBatchId s' = currentBatchId s).
Proof.
  intros F s. split.
  - intros txs. split; [| apply run_currentBatchId].
    apply (run_preserves (fun s' => currentBatchId s <= currentBatchId s'));
      [| lia].
    intros env c s1 s2 evs Hle Hex.
    apply exec_currentBatchId in Hex. lia.
  - intros env c s' evs Hex Hc.
    destruct c; try congruence;
      unfold_ops; repeat case_match; simplify_eq; reflexivity.
Qed.

Lemma currentBatchId_monotone_witness :
  exec (Scenario.at_ Scenario.deployer 100) CloseBatch Scenario.after_setup
  = Ok (Scenario.closed, [BatchClosed 1]) /\
  currentBatchId Scenario.closed = currentBatchId Scenario.after_setup.
Proof.
  assert (Hex :
    exec (Scenario.at_ Scenario.deployer 100) CloseBatch Scenario.after_setup
    = Ok (Scenario.closed, [BatchClosed 1])) by reflexivity.
  split; [exact Hex |].
  apply (proj2 (currentBatchId_monotone Scenario.F_5_15_9 Scenario.after_setup)
           _ _ _ _ Hex).
  discriminate.
Defined.

(** ** Who can change what *)

(** X12. A caller who is not the owner can only submit a bid or deliver
    a callback: any other call reverts, and a successful call leaves
    the owner, the provider set, the pause flag, the cooldown, the
    batch id and the batch's open flag as they were. *)
Theorem non_owner_cannot_administer :
  forall (F : FHEVM) (env : Env) (c : Call F) (s s' : State F)
         (evs : list (Event F)),
    msg_sender env <> owner s ->
    exec env c s = Ok (s', evs) ->
    ((exists amount, c = SubmitBid amount) \/
     (exists requestId cleartexts proof,
         c = MyCallback requestId cleartexts proof)) /\
    owner s' = owner s /\
    isProvider s' = isProvider s /\
    paused s' = paused s /\
    cooldownSeconds s' = cooldownSeconds s /\
    currentBatchId s' = currentBatchId s /\
    batchOpen s' = batchOpen s.
Proof.
  intros F env c s s' evs Hne Hex.
  assert (Hrej : onlyOwner env s = Revert NotOwner).
  { unfold onlyOwner, guard. apply Z.eqb_neq in Hne. now rewrite Hne. }
  assert (Hrole : roleCheck env c s = onlyOwner env s ->
                  exec env c s = Revert NotOwner)
    by (intros Hr; apply role_checked_first; now rewrite Hr).
  destruct c;
    try (rewrite Hrole in Hex by reflexivity; discriminate Hex);
    cbn [exec] in Hex.
  - apply submitBid_success in Hex as (_ & _ & _ & _ & _ & -> & _).
    split; [left; eauto |]. repeat split.
  - apply myCallback_success in Hex as (_ & -> & _).
    split; [right; eauto |]. repeat split.
Qed.

Lemma non_owner_cannot_administer_witness :
  exists s',
    exec (Scenario.at_ Scenario.A 500)
      (SubmitBid (2 : @euint32 Scenario.F_5_15_9)) Scenario.after_setup
    = Ok (s', [@BidSubmitted Scenario.F_5_15_9 Scenario.A 1 2]) /\
    owner s' = owner Scenario.after_setup /\
    isProvider s' = isProvider Scenario.after_setup /\
    paused s' = paused Scenario.after_setup.
Proof.
  eexists. split; [reflexivity |].
  destruct (non_owner_cannot_administer Scenario.F_5_15_9
              (Scenario.at_ Scenario.A 500)
              (SubmitBid (2 : @euint32 Scenario.F_5_15_9))
              Scenario.after_setup _ _
              (fun Heq => ltac:(discriminate Heq)) eq_refl)
    as (_ & Hown & Hprov & Hp & _).
  split; [exact Hown |]. split; [exact Hprov | exact Hp].
Defined.

(** X13. Each administrative field has its own writers. If a
    successful transaction changes the owner it is [transferOwnership];
    the provider set, [addProvider] or [removeProvider]; the pause
    flag, [pause] or [unpause]; the cooldown, [setCooldownSeconds]; the
    batch's open flag or id, [openBatch] or [closeBatch]. *)
Theorem administrative_fields_writers :
  forall (F : FHEVM) (env : Env) (c : Call F) (s s' : State F)
         (evs : list (Event F)),
    exec env c s = Ok (s', evs) ->
    (owner s' <> owner s -> exists newOwner, c = TransferOwnership newOwner) /\
    (isProvider s' <> isProvider s ->
     exists provider, c = AddProvider provider \/ c = RemoveProvider provider) /\
    (paused s' <> paused s -> c = Pause \/ c = Unpause) /\
    (cooldownSeconds s' <> cooldownSeconds s ->
     exists n, c = SetCooldownSeconds n) /\
    (batchOpen s' <> batchOpen s -> c = OpenBatch \/ c = CloseBatch) /\
    (currentBatchId s' <> currentBatchId s -> c = OpenBatch).
Proof.
  intros F env c s s' evs Hex.
  destruct c; cbn [exec] in Hex.
  1-8: unfold_ops; repeat case_match; simplify_eq; cbn;
       repeat split; intros Hch; solve [congruence | eauto].
  - apply submitBid_success in Hex as (_ & _ & _ & _ & _ & -> & _).
    cbn. repeat split; intros Hch; congruence.
  - apply findHighestBidder_success in Hex as (first & rest & _ & -> & _).
    cbn. repeat split; intros Hch; congruence.
  - apply myCallback_success in Hex as (_ & -> & _).
    cbn. repeat split; intros Hch; congruence.
Qed.

Lemma administrative_fields_writers_witness :
  exec (Scenario.at_ Scenario.deployer 100) Pause Scenario.fresh
  = Ok (Scenario.paused_state, [Paused Scenario.deployer]) /\
  paused Scenario.paused_state <> paused Scenario.fresh /\
  (@Pause Scenario.F_5_15_9 = Pause \/ @Pause Scenario.F_5_15_9 = Unpause).
Proof.
  assert (Hex :
    exec (Scenario.at_ Scenario.deployer 100) Pause Scenario.fresh
    = Ok (Scenario.paused_state, [Paused Scenario.deployer])) by reflexivity.
  assert (Hch : paused Scenario.paused_state <> paused Scenario.fresh)
    by (intros Heq; discriminate Heq).
  split; [exact Hex |]. split; [exact Hch |].
  exact (proj1 (proj2 (proj2
           (administrative_fields_writers Scenario.F_5_15_9 _ _ _ _ _ Hex)))
           Hch).
Defined.

(** X14. The context of a request id is written by a decryption request
    issued under that id and by a callback for that id, and by nothing
    else; the callback changes the [processed] flag only, the batch id
    and the fingerprint of the context stay. A caller's
    last-submission time is written by that caller's [submitBid] only,
    and a caller's last-decryption-request time by that caller's
    [findHighestBidder] only. *)
Theorem request_bookkeeping_writers :
  forall (F : FHEVM) (env : Env) (c : Call F) (s s' : State F)
         (evs : list (Event F)),
    exec env c s = Ok (s', evs) ->
    (forall requestId,
        decryptionContextOf s' requestId <> decryptionContextOf s requestId ->
        c = FindHighestBidder requestId \/
        (exists cleartexts proof, c = MyCallback requestId cleartexts proof) /\
        batchId (decryptionContextOf s' requestId)
        = batchId (decryptionContextOf s requestId) /\
        stateHash (decryptionContextOf s' requestId)
        = stateHash (decryptionContextOf s requestId)) /\
    (forall a,
        lastSubmissionTimeOf s' a <> lastSubmissionTimeOf s a ->
        a = msg_sender env /\ exists amount, c = SubmitBid amount) /\
    (forall a,
        lastDecryptionRequestTimeOf s' a <> lastDecryptionRequestTimeOf s a ->
        a = msg_sender env /\ exists requestId, c = FindHighestBidder requestId).
Proof.
  intros F env c s s' evs Hex.
  destruct c; cbn [exec] in Hex.
  1-8: unfold_ops; repeat case_match; simplify_eq;
       (split; [| split]); intros x Hch; exfalso; apply Hch; reflexivity.
  - apply submitBid_success in Hex as (_ & _ & _ & _ & _ & -> & _).
    split; [| split].
    + intros x Hch; exfalso; apply Hch; reflexivity.
    + intros a Hch. split; [| eauto].
      destruct (decide (a = msg_sender env)) as [| Hne]; [assumption |].
      exfalso. apply Hch. unfold lastSubmissionTimeOf; cbn.
      now rewrite lookup_insert_ne by auto.
    + intros x Hch; exfalso; apply Hch; reflexivity.
  - apply findHighestBidder_success in Hex as (first & rest & _ & -> & _).
    split; [| split].
    + intros r Hch. left.
      destruct (decide (requestId = r)) as [-> | Hne]; [reflexivity |].
      exfalso. apply Hch. unfold decryptionContextOf; cbn.
      now rewrite lookup_insert_ne by auto.
    + intros x Hch; exfalso; apply Hch; reflexivity.
    + intros a Hch. split; [| eauto].
      destruct (decide (a = msg_sender env)) as [| Hne]; [assumption |].
      exfalso. apply Hch. unfold lastDecryptionRequestTimeOf; cbn.
      now rewrite lookup_insert_ne by auto.
  - apply myCallback_success in Hex as (_ & -> & _).
    split; [| split].
    + intros r Hch. right.
      destruct (decide (requestId = r)) as [-> | Hne].
      * split; [eauto |]. unfold mark_processed.
        rewrite context_after_write. split; reflexivity.
      * exfalso. apply Hch. now apply context_after_other_mark.
    + intros x Hch; exfalso; apply Hch; reflexivity.
    + intros x Hch; exfalso; apply Hch; reflexivity.
Qed.

Lemma request_bookkeeping_writers_witness :
  exec (Scenario.at_ Scenario.deployer 100) (FindHighestBidder 7)
    Scenario.closed
  = Ok (Scenario.requested,
        [DecryptionRequested 7 1
           (stateHash (decryptionContextOf Scenario.requested 7))]) /\
  decryptionContextOf Scenario.requested 7
  <> decryptionContextOf Scenario.closed 7 /\
  (@FindHighestBidder Scenario.F_5_15_9 7 = FindHighestBidder 7 \/
   (exists cleartexts proof,
       @FindHighestBidder Scenario.F_5_15_9 7
       = MyCallback 7 cleartexts proof) /\
   batchId (decryptionContextOf Scenario.requested 7)
   = batchId (decryptionContextOf Scenario.closed 7) /\
   stateHash (decryptionContextOf Scenario.requested 7)
   = stateHash (decryptionContextOf Scenario.closed 7)).
Proof.
  assert (Hex :
    exec (Scenario.at_ Scenario.deployer 100) (FindHighestBidder 7)
      Scenario.closed
    = Ok (Scenario.requested,
          [DecryptionRequested 7 1
             (stateHash (decryptionContextOf Scenario.requested 7))]))
    by reflexivity.
  assert (Hch : decryptionContextOf Scenario.requested 7
                <> decryptionContextOf Scenario.closed 7).
  { assert (H1 : batchId (decryptionContextOf Scenario.requested 7) = 1)
      by reflexivity.
    assert (H0 : batchId (decryptionContextOf Scenario.closed 7) = 0)
      by reflexivity.
    intros Heq. rewrite Heq in H1. rewrite H0 in H1. discriminate H1. }
  split; [exact Hex |]. split; [exact Hch |].
  exact (proj1 (request_bookkeeping_writers Scenario.F_5_15_9 _ _ _ _ _ Hex)
           7 Hch).
Defined.

(** ** Decryption requests *)

(** X15. The decryption cooldown mirrors the submission cooldown. For
    the owner of an unpaused contract, with
    [lastDecryptionRequestTime[owner] + cooldownSeconds] within
    uint256: [findHighestBidder] before that time reverts with
    [CooldownActive]; at or after it, on a non-empty ledger, it
    succeeds and records the block time, so that the next request
    before that time plus [cooldownSeconds] reverts with
    [CooldownActive], whatever request id the oracle would give. *)
Theorem findHighestBidder_cooldown_window :
  forall (F : FHEVM) (env : Env) (requestId : Z) (s : State F),
    msg_sender env = owner s ->
    paused s = false ->
    lastDecryptionRequestTimeOf s (msg_sender env) + cooldownSeconds s
    <= MAX_UINT256 ->
    (block_timestamp env
     < lastDecryptionRequestTimeOf s (msg_sender env) + cooldownSeconds s ->
     findHighestBidder env requestId s = Revert CooldownActive) /\
    (lastDecryptionRequestTimeOf s (msg_sender env) + cooldownSeconds s
     <= block_timestamp env ->
     block_timestamp env <= MAX_UINT256 ->
     bids s <> [] ->
     exists s' evs,
       findHighestBidder env requestId s = Ok (s', evs) /\
       lastDecryptionRequestTimeOf s' (msg_sender env) = block_timestamp env /\
       (forall env2 requestId2,
           msg_sender env2 = msg_sender env ->
           block_timestamp env + cooldownSeconds s <= MAX_UINT256 ->
           block_timestamp env2 < block_timestamp env + cooldownSeconds s ->
           findHighestBidder env2 requestId2 s' = Revert CooldownActive)).
Proof.
  intros F env requestId s Hown Hp Hfit. split.
  - now apply findHighestBidder_cooldown.
  - intros Hlate Hnow Hbids.
    destruct (bids s) as [| first rest] eqn:Hb; [congruence |].
    eexists _, _.
    split; [now apply (findHighestBidder_ok _ _ _ first rest) |].
    set (s' := set_lastDecryptionRequestTime (msg_sender env)
                 (block_timestamp env) _).
    assert (Hlast : lastDecryptionRequestTimeOf s' (msg_sender env)
                    = block_timestamp env).
    { unfold lastDecryptionRequestTimeOf, s'; cbn. now rewrite lookup_insert_eq. }
    split; [exact Hlast |].
    intros env2 requestId2 Hsame Hfit2 Hearly.
    apply findHighestBidder_cooldown; rewrite ?Hsame, ?Hlast; assumption.
Qed.

Lemma findHighestBidder_cooldown_window_witness :
  findHighestBidder (Scenario.at_ Scenario.deployer 59) 7 Scenario.closed
  = Revert CooldownActive /\
  exists s' evs,
    findHighestBidder (Scenario.at_ Scenario.deployer 100) 7 Scenario.closed
    = Ok (s', evs) /\
    findHighestBidder (Scenario.at_ Scenario.deployer 159) 8 s'
    = Revert CooldownActive.
Proof.
  assert (Hfit : lastDecryptionRequestTimeOf Scenario.closed Scenario.deployer
                 + cooldownSeconds Scenario.closed <= MAX_UINT256)
    by (intros Hgt; discriminate Hgt).
  split.
  - apply (proj1 (findHighestBidder_cooldown_window Scenario.F_5_15_9
                    (Scenario.at_ Scenario.deployer 59) 7 Scenario.closed
                    eq_refl eq_refl Hfit)).
    reflexivity.
  - destruct (proj2 (findHighestBidder_cooldown_window Scenario.F_5_15_9
                       (Scenario.at_ Scenario.deployer 100) 7 Scenario.closed
                       eq_refl eq_refl Hfit))
      as (s' & evs & Hok & _ & Hnext);
      [intros Hgt; discriminate Hgt | intros Hgt; discriminate Hgt
      | discriminate |].
    exists s', evs. split; [exact Hok |].
    apply (Hnext (Scenario.at_ Scenario.deployer 159) 8);
      [reflexivity | intros Hgt; discriminate Hgt | reflexivity].
Defined.

(** X16. An address that never submitted reads a last-submission time
    of zero, so its first [submitBid] is subject to the cooldown
    counted from time zero: at a block time below [cooldownSeconds] it
    reverts with [CooldownActive]. The same holds for the owner's first
    [findHighestBidder]. *)
Theorem first_action_waits_from_time_zero :
  forall (F : FHEVM) (env : Env) (s : State F),
    paused s = false ->
    cooldownSeconds s <= MAX_UINT256 ->
    block_timestamp env < cooldownSeconds s ->
    (isProviderOf s (msg_sender env) = true ->
     lastSubmissionTime s !! msg_sender env = None ->
     forall amount, submitBid env amount s = Revert CooldownActive) /\
    (msg_sender env = owner s ->
     lastDecryptionRequestTime s !! msg_sender env = None ->
     forall requestId,
       findHighestBidder env requestId s = Revert CooldownActive).
Proof.
  intros F env s Hp Hfit Hearly. split.
  - intros Hprov Hnone amount.
    apply submitBid_cooldown; try assumption;
      unfold lastSubmissionTimeOf; rewrite Hnone; cbn; lia.
  - intros Hown Hnone requestId.
    apply findHighestBidder_cooldown; try assumption;
      unfold lastDecryptionRequestTimeOf; rewrite Hnone; cbn; lia.
Qed.

Lemma first_action_waits_from_time_zero_witness :
  lastDecryptionRequestTime Scenario.closed !! Scenario.deployer = None /\
  findHighestBidder (Scenario.at_ Scenario.deployer 59) 7 Scenario.closed
  = Revert CooldownActive.
Proof.
  split; [reflexivity |].
  apply (proj2 (first_action_waits_from_time_zero Scenario.F_5_15_9
                  (Scenario.at_ Scenario.deployer 59) Scenario.closed
                  eq_refl (fun Hgt => ltac:(discriminate Hgt)) eq_refl));
    reflexivity.
Defined.

(** X17. [findHighestBidder] does not read the batch's open flag: on
    two states that differ in that flag only it gives the same result,
    up to the flag. A request can thus be made while the batch is still
    open. With an empty ledger it reverts with [NoBidsInBatch] once the
    three modifiers have passed. *)
Theorem findHighestBidder_ignores_batchOpen :
  forall (F : FHEVM) (env : Env) (requestId : Z) (s : State F),
    (forall b,
        findHighestBidder env requestId (set_batchOpen b s)
        = match findHighestBidder env requestId s with
          | Ok (s', evs) => Ok (set_batchOpen b s', evs)
          | Revert e => Revert e
          end) /\
    (msg_sender env = owner s ->
     paused s = false ->
     lastDecryptionRequestTimeOf s (msg_sender env) + cooldownSeconds s
     <= block_timestamp env ->
     block_timestamp env <= MAX_UINT256 ->
     bids s = [] ->
     findHighestBidder env requestId s = Revert NoBidsInBatch).
Proof.
  intros F env requestId s. split.
  - intros b. unfold findHighestBidder; unfold_modifiers.
    change (lastDecryptionRequestTimeOf (set_batchOpen b s) (msg_sender env))
      with (lastDecryptionRequestTimeOf s (msg_sender env)).
    cbn [owner paused cooldownSeconds bids currentBatchId set_batchOpen].
    repeat case_match; reflexivity.
  - intros Hown Hp Hlate Hnow Hbids.
    unfold findHighestBidder; unfold_modifiers.
    rewrite Hown, Z.eqb_refl, Hp; cbn. rewrite <- Hown.
    destruct (Z.leb_spec (lastDecryptionRequestTimeOf s (msg_sender env)
                          + cooldownSeconds s) MAX_UINT256); [| lia].
    destruct (Z.ltb_spec (block_timestamp env)
                (lastDecryptionRequestTimeOf s (msg_sender env)
                 + cooldownSeconds s)); [lia |].
    cbn. now rewrite Hbids.
Qed.

Lemma findHighestBidder_ignores_batchOpen_witness :
  bids Scenario.fresh = [] /\
  findHighestBidder (Scenario.at_ Scenario.deployer 100) 7 Scenario.fresh
  = Revert NoBidsInBatch.
Proof.
  split; [reflexivity |].
  apply (proj2 (findHighestBidder_ignores_batchOpen Scenario.F_5_15_9
                  (Scenario.at_ Scenario.deployer 100) 7 Scenario.fresh));
    try reflexivity; intros Hgt; discriminate Hgt.
Defined.

(** ** Callbacks *)

Section CallbackMore.
Context {F : FHEVM}.

(** A transaction that is not a request under [requestId] keeps the
    batch id and the fingerprint recorded for [requestId]. *)
Lemma exec_keeps_request_record (requestId : Z) (env : Env) (c : Call F)
  (s s' : State F) (evs : list (Event F)) :
  exec env c s = Ok (s', evs) ->
  issues requestId c = false ->
  batchId (decryptionContextOf s' requestId)
  = batchId (decryptionContextOf s requestId) /\
  stateHash (decryptionContextOf s' requestId)
  = stateHash (decryptionContextOf s requestId).
Proof.
  intros Hex Hiss. destruct c; cbn [exec] in Hex; cbn in Hiss.
  1-8: unfold_ops; repeat case_match; simplify_eq; split; reflexivity.
  - apply submitBid_success in Hex as (_ & _ & _ & _ & _ & -> & _).
    split; reflexivity.
  - apply findHighestBidder_success in Hex as (first & rest & _ & -> & _).
    apply Z.eqb_neq in Hiss. unfold decryptionContextOf; cbn.
    rewrite lookup_insert_ne by exact Hiss. split; reflexivity.
  - apply myCallback_success in Hex as (_ & -> & _).
    destruct (decide (requestId0 = requestId)) as [-> | Hne].
    + unfold mark_processed. rewrite context_after_write. split; reflexivity.
    + rewrite context_after_other_mark by exact Hne. split; reflexivity.
Qed.

Lemma run_keeps_request_record (requestId : Z) (txs : list (Env * Call F))
  (s : State F) :
  never_reissued requestId txs ->
  batchId (decryptionContextOf (fst (run txs s)) requestId)
  = batchId (decryptionContextOf s requestId) /\
  stateHash (decryptionContextOf (fst (run txs s)) requestId)
  = stateHash (decryptionContextOf s requestId).
Proof.
  intros Hfresh. revert s.
  induction Hfresh as [| [env c] txs Hc _ IH]; intros s; cbn [run].
  - split; reflexivity.
  - destruct (exec env c s) as [[s' evs] |] eqn:Hex.
    + destruct (exec_keeps_request_record _ _ _ _ _ _ Hex Hc) as [Hb Hh].
      specialize (IH s'). destruct (run txs s'); cbn [fst] in *.
      rewrite <- Hb, <- Hh. exact IH.
    + apply IH.
Qed.

Lemma mark_processed_set_paused (requestId : Z) (b : bool) (s : State F) :
  mark_processed requestId (set_paused b s)
  = set_paused b (mark_processed requestId s).
Proof. reflexivity. Qed.

End CallbackMore.

(** X18. The callback has no role check and no pause check: its result
    does not depend on who calls it or when, and on a paused contract
    it is what it is on the unpaused one. *)
Theorem myCallback_ignores_caller_and_pause :
  forall (F : FHEVM) (env env' : Env) (requestId : Z)
         (cleartexts proof : list Z) (s : State F) (b : bool),
    myCallback env' requestId cleartexts proof (set_paused b s)
    = match myCallback env requestId cleartexts proof s with
      | Ok (s', evs) => Ok (set_paused b s', evs)
      | Revert e => Revert e
      end.
Proof.
  intros F env env' requestId cleartexts proof s b.
  unfold myCallback, guard, bindR.
  change (decryptionContextOf (set_paused b s) requestId)
    with (decryptionContextOf s requestId).
  rewrite mark_processed_set_paused.
  change (decryptionContextOf
            (set_paused b (mark_processed requestId s)) requestId)
    with (decryptionContextOf (mark_processed requestId s) requestId).
  cbn [bids set_paused].
  repeat case_match; reflexivity.
Qed.

(** X19. Once the fingerprint check has passed, a proof the oracle
    check rejects makes the callback revert with [InvalidProof]. With
    an accepted proof the winning amount is the first 32-byte word of
    the cleartexts: cleartexts shorter than a word, or whose first
    word does not fit in 32 bits, make the callback revert in the
    decoding, which the [catch] does not cover; otherwise the callback
    settles with that word as the amount, the winner of the tournament
    over the current ledger and the batch id recorded at the
    request. *)
Theorem myCallback_proof_and_cleartexts :
  forall (F : FHEVM) (env : Env) (requestId : Z) (cleartexts proof : list Z)
         (s : State F) (first : Bid F) (rest : list (Bid F)),
    processed (decryptionContextOf s requestId) = false ->
    bids s = first :: rest ->
    _hashCiphertexts (tournament_cts (tournament first rest))
    = stateHash (decryptionContextOf s requestId) ->
    (checkSignatures requestId cleartexts proof = false ->
     myCallback env requestId cleartexts proof s = Revert InvalidProof) /\
    (checkSignatures requestId cleartexts proof = true ->
     (length cleartexts < 32)%nat ->
     myCallback env requestId cleartexts proof s = Revert AbiDecodeFailed) /\
    (checkSignatures requestId cleartexts proof = true ->
     (32 <= length cleartexts)%nat ->
     MAX_UINT32 < be_value (firstn 32 cleartexts) ->
     myCallback env requestId cleartexts proof s = Revert AbiDecodeFailed) /\
    (checkSignatures requestId cleartexts proof = true ->
     (32 <= length cleartexts)%nat ->
     be_value (firstn 32 cleartexts) <= MAX_UINT32 ->
     myCallback env requestId cleartexts proof s
     = Ok (mark_processed requestId s,
           [AuctionSettled requestId
              (batchId (decryptionContextOf s requestId))
              (snd (tournament first rest))
              (be_value (firstn 32 cleartexts))])).
Proof.
  intros F env requestId cleartexts proof s first rest Hp Hbids Hh.
  unfold myCallback, guard, bindR. rewrite Hp, Hbids; cbn [negb].
  apply Z.eqb_eq in Hh. rewrite Hh. rewrite batchId_after_mark.
  unfold abi_decode_uint32.
  split; [| split; [| split]].
  - now intros ->.
  - intros -> Hshort. apply Nat.ltb_lt in Hshort. now rewrite Hshort.
  - intros -> Hlong Hbig. apply Nat.ltb_ge in Hlong. rewrite Hlong.
    destruct (Z.leb_spec (be_value (firstn 32 cleartexts)) MAX_UINT32);
      [lia | reflexivity].
  - intros -> Hlong Hfit. apply Nat.ltb_ge in Hlong. rewrite Hlong.
    destruct (Z.leb_spec (be_value (firstn 32 cleartexts)) MAX_UINT32);
      [reflexivity | lia].
Qed.

Lemma myCallback_proof_and_cleartexts_witness :
  checkSignatures (FHEVM := Scenario.F_5_15_9) 7 Scenario.oracle_cleartexts []
  = false /\
  myCallback (Scenario.at_ Scenario.outsider 100) 7
    Scenario.oracle_cleartexts [] Scenario.requested
  = Revert InvalidProof.
Proof.
  split; [reflexivity |].
  apply (proj1 (myCallback_proof_and_cleartexts Scenario.F_5_15_9
                  (Scenario.at_ Scenario.outsider 100) 7
                  Scenario.oracle_cleartexts [] Scenario.requested
                  (fst (@Scenario.ledger Scenario.F_5_15_9 1 2 3))
                  (snd (@Scenario.ledger Scenario.F_5_15_9 1 2 3))
                  eq_refl eq_refl eq_refl)).
  reflexivity.
Defined.

(** X20. A callback for a request id under which nothing was recorded
    reads an all-zero context: it reverts with [NoBidsInBatch] on an
    empty ledger and, on a non-empty one, with [StateMismatch] as long
    as the fingerprint of the current tournament is not zero. *)
Theorem myCallback_unknown_request :
  forall (F : FHEVM) (env : Env) (requestId : Z) (cleartexts proof : list Z)
         (s : State F),
    decryptionContexts s !! requestId = None ->
    (bids s = [] ->
     myCallback env requestId cleartexts proof s = Revert NoBidsInBatch) /\
    (forall first rest,
        bids s = first :: rest ->
        _hashCiphertexts (tournament_cts (tournament first rest)) <> 0 ->
        myCallback env requestId cleartexts proof s = Revert StateMismatch).
Proof.
  intros F env requestId cleartexts proof s Hnone.
  assert (Hctx : decryptionContextOf s requestId = emptyContext)
    by (unfold decryptionContextOf; now rewrite Hnone).
  split.
  - intros Hbids. apply myCallback_empty_ledger; [now rewrite Hctx | exact Hbids].
  - intros first rest Hbids Hnz.
    apply (myCallback_mismatch _ _ _ _ _ first rest);
      [now rewrite Hctx | exact Hbids | now rewrite Hctx].
Qed.

Lemma myCallback_unknown_request_witness :
  decryptionContexts Scenario.requested !! 8 = None /\
  myCallback (Scenario.at_ Scenario.outsider 100) 8
    Scenario.oracle_cleartexts Scenario2.oracle_proof_8 Scenario.requested
  = Revert StateMismatch.
Proof.
  assert (Hnone : decryptionContexts Scenario.requested !! 8 = None)
    by reflexivity.
  split; [exact Hnone |].
  apply (proj2 (myCallback_unknown_request Scenario.F_5_15_9
                  (Scenario.at_ Scenario.outsider 100) 8
                  Scenario.oracle_cleartexts Scenario2.oracle_proof_8
                  Scenario.requested Hnone)
           (fst (@Scenario.ledger Scenario.F_5_15_9 1 2 3))
           (snd (@Scenario.ledger Scenario.F_5_15_9 1 2 3)) eq_refl).
  apply Z.eqb_neq. reflexivity.
Defined.

(** X21. The settlement reports the batch id that was current when the
    request was made. After a successful [findHighestBidder], whatever
    transactions follow (none of them a request under the same id), a
    callback that succeeds emits [AuctionSettled] with the batch id of
    the request, also when a later batch is current by then. *)
Theorem settlement_reports_request_batch :
  forall (F : FHEVM) (env env' : Env) (requestId : Z)
         (cleartexts proof : list Z) (txs : list (Env * Call F))
         (s s1 s2 : State F) (evs1 evs2 : list (Event F)),
    findHighestBidder env requestId s = Ok (s1, evs1) ->
    never_reissued requestId txs ->
    myCallback env' requestId cleartexts proof (fst (run txs s1))
    = Ok (s2, evs2) ->
    exists winner amount,
      evs2 = [AuctionSettled requestId (currentBatchId s) winner amount].
Proof.
  intros F env env' requestId cleartexts proof txs s s1 s2 evs1 evs2
         Hreq Hfresh Hcb.
  apply findHighestBidder_success in Hreq as (first & rest & _ & Hs1 & _).
  assert (Hid : batchId (decryptionContextOf s1 requestId) = currentBatchId s).
  { rewrite Hs1. unfold decryptionContextOf; cbn.
    now rewrite lookup_insert_eq. }
  destruct (run_keeps_request_record requestId txs s1 Hfresh) as [Hb _].
  apply myCallback_success in Hcb
    as (_ & _ & first' & rest' & amount & _ & _ & _ & _ & ->).
  rewrite Hb, Hid. eauto.
Qed.

Lemma settlement_reports_request_batch_witness :
  currentBatchId Scenario2.rebid = 2 /\
  myCallback (Scenario.at_ Scenario.outsider 300) 7
    Scenario.oracle_cleartexts Scenario.oracle_proof Scenario2.rebid
  = Ok (mark_processed 7 Scenario2.rebid,
        [AuctionSettled 7 1 Scenario.B 15]) /\
  exists winner amount,
    [@AuctionSettled Scenario.F_5_15_9 7 1 Scenario.B 15]
    = [AuctionSettled 7 (currentBatchId Scenario.closed) winner amount].
Proof.
  assert (Hreq :
    findHighestBidder (Scenario.at_ Scenario.deployer 100) 7 Scenario.closed
    = Ok (Scenario.requested,
          [DecryptionRequested 7 1
             (stateHash (decryptionContextOf Scenario.requested 7))]))
    by reflexivity.
  assert (Hcb :
    myCallback (Scenario.at_ Scenario.outsider 300) 7
      Scenario.oracle_cleartexts Scenario.oracle_proof Scenario2.rebid
    = Ok (mark_processed 7 Scenario2.rebid,
          [AuctionSettled 7 1 Scenario.B 15])) by reflexivity.
  assert (Hfresh : never_reissued 7 Scenario2.rebid_script)
    by (repeat constructor).
  split; [reflexivity |]. split; [exact Hcb |].
  exact (settlement_reports_request_batch Scenario.F_5_15_9 _ _ 7 _ _
           Scenario2.rebid_script _ _ _ _ _ Hreq Hfresh Hcb).
Defined.

(** X22. Settling one request does not touch another: after a
    successful callback for one request id, a callback for a different
    id has the outcome it would have had before, the same events or
    the same revert. Two requests made over the same ledger can both
    be settled. *)
Theorem settling_leaves_other_requests :
  forall (F : FHEVM) (env env2 : Env) (requestId requestId2 : Z)
         (cleartexts proof cleartexts2 proof2 : list Z)
         (s s' : State F) (evs : list (Event F)),
    requestId <> requestId2 ->
    myCallback env requestId cleartexts proof s = Ok (s', evs) ->
    myCallback env2 requestId2 cleartexts2 proof2 s'
    = match myCallback env2 requestId2 cleartexts2 proof2 s with
      | Ok (_, evs2) => Ok (mark_processed requestId2 s', evs2)
      | Revert e => Revert e
      end.
Proof.
  intros F env env2 requestId requestId2 cleartexts proof cleartexts2 proof2
         s s' evs Hne Hok.
  apply myCallback_success in Hok as (_ & -> & _).
  unfold myCallback, guard, bindR.
  rewrite !batchId_after_mark.
  rewrite (context_after_other_mark requestId requestId2 s Hne).
  change (bids (mark_processed requestId s)) with (bids s).
  repeat case_match; reflexivity.
Qed.

Lemma settling_leaves_other_requests_witness :
  myCallback (Scenario.at_ Scenario.outsider 300) 7
    Scenario.oracle_cleartexts Scenario.oracle_proof Scenario2.requested_twice
  = Ok (mark_processed 7 Scenario2.requested_twice,
        [AuctionSettled 7 1 Scenario.B 15]) /\
  myCallback (Scenario.at_ Scenario.outsider 300) 8
    Scenario.oracle_cleartexts Scenario2.oracle_proof_8
    (mark_processed 7 Scenario2.requested_twice)
  = Ok (mark_processed 8 (mark_processed 7 Scenario2.requested_twice),
        [AuctionSettled 8 1 Scenario.B 15]).
Proof.
  assert (H7 :
    myCallback (Scenario.at_ Scenario.outsider 300) 7
      Scenario.oracle_cleartexts Scenario.oracle_proof
      Scenario2.requested_twice
    = Ok (mark_processed 7 Scenario2.requested_twice,
          [AuctionSettled 7 1 Scenario.B 15])) by reflexivity.
  assert (H8 :
    myCallback (Scenario.at_ Scenario.outsider 300) 8
      Scenario.oracle_cleartexts Scenario2.oracle_proof_8
      Scenario2.requested_twice
    = Ok (mark_processed 8 Scenario2.requested_twice,
          [AuctionSettled 8 1 Scenario.B 15])) by reflexivity.
  split; [exact H7 |].
  rewrite (settling_leaves_other_requests Scenario.F_5_15_9 _
             (Scenario.at_ Scenario.outsider 300) 7 8 _ _
             Scenario.oracle_cleartexts Scenario2.oracle_proof_8 _ _ _
             ltac:(discriminate) H7).
  now rewrite H8.
Defined.

(** ** ABI words *)

Section AbiFacts.

Lemma length_be_bytes (n : nat) (v : Z) : length (be_bytes n v) = n.
Proof.
  revert v. induction n as [| n IH]; intros v; cbn [be_bytes].
  - reflexivity.
  - rewrite length_app, IH. cbn. lia.
Qed.

Lemma be_value_snoc (bs : list Z) (b : Z) :
  be_value (bs ++ [b]) = be_value bs * 256 + b.
Proof. unfold be_value. now rewrite fold_left_app. Qed.

Lemma be_value_be_bytes (n : nat) (v : Z) :
  be_value (be_bytes n v) = v mod 256 ^ Z.of_nat n.
Proof.
  revert v. induction n as [| n IH]; intros v; cbn [be_bytes].
  - cbn. now rewrite Z.mod_1_r.
  - rewrite be_value_snoc, IH.
    rewrite Nat2Z.inj_succ, Z.pow_succ_r by lia.
    rewrite (Z.rem_mul_r v 256 (256 ^ Z.of_nat n)) by lia. lia.
Qed.

Lemma be_bytes_range (n : nat) (v : Z) :
  Forall (fun b => 0 <= b < 256) (be_bytes n v).
Proof.
  revert v. induction n as [| n IH]; intros v; cbn [be_bytes].
  - constructor.
  - apply Forall_app. split; [apply IH |].
    constructor; [apply Z.mod_pos_bound; lia | constructor].
Qed.

Lemma two_256 : 256 ^ Z.of_nat 32 = MAX_UINT256 + 1.
Proof. reflexivity. Qed.

Lemma be_value_word (v : Z) :
  0 <= v <= MAX_UINT256 -> be_value (word v) = v.
Proof.
  intros Hv. unfold word. rewrite be_value_be_bytes, two_256.
  apply Z.mod_small. lia.
Qed.


Lemma firstn_word_app (v : Z) (rest : list Z) :
  firstn 32 (word v ++ rest) = word v.
Proof.
  unfold word. rewrite firstn_app, (length_be_bytes 32 v).
  rewrite Nat.sub_diag. cbn [firstn]. rewrite app_nil_r.
  apply firstn_all2. now rewrite length_be_bytes.
Qed.


End AbiFacts.

(** X23. Decoding undoes encoding: for a value that fits in 32 bits,
    [abi.decode(_, (uint32))] applied to data that starts with the
    value's ABI word gives the value back, whatever follows the word.
    A first word between 2^32 and 2^256-1, or data shorter than a
    word, makes the decoding revert. *)
Theorem abi_decode_uint32_round_trip :
  forall (v : Z) (rest data : list Z),
    (0 <= v <= MAX_UINT32 -> abi_decode_uint32 (word v ++ rest) = Ok v) /\
    (MAX_UINT32 < v <= MAX_UINT256 ->
     abi_decode_uint32 (word v ++ rest) = Revert AbiDecodeFailed) /\
    ((length data < 32)%nat -> abi_decode_uint32 data = Revert AbiDecodeFailed).
Proof.
  intros v rest data.
  assert (Hlen : (length (word v ++ rest) <? 32)%nat = false).
  { apply Nat.ltb_ge. rewrite length_app. unfold word.
    rewrite length_be_bytes. lia. }
  assert (H32 : MAX_UINT32 < MAX_UINT256) by reflexivity.
  assert (H0 : 0 <= MAX_UINT32) by (intros Hgt; discriminate Hgt).
  split; [| split].
  - intros Hv. unfold abi_decode_uint32. rewrite Hlen, firstn_word_app.
    rewrite be_value_word by lia.
    destruct (Z.leb_spec v MAX_UINT32); [reflexivity | lia].
  - intros Hv. unfold abi_decode_uint32. rewrite Hlen, firstn_word_app.
    rewrite be_value_word by lia.
    destruct (Z.leb_spec v MAX_UINT32); [lia | reflexivity].
  - intros Hshort. unfold abi_decode_uint32.
    apply Nat.ltb_lt in Hshort. now rewrite Hshort.
Qed.

Lemma abi_decode_uint32_round_trip_witness :
  0 <= 15 <= MAX_UINT32 /\
  abi_decode_uint32 (word 15 ++ word 99) = Ok 15.
Proof.
  assert (Hv : 0 <= 15 <= MAX_UINT32)
    by (split; intros Hgt; discriminate Hgt).
  split; [exact Hv |].
  exact (proj1 (abi_decode_uint32_round_trip 15 (word 99) []) Hv).
Defined.



(** ** The tournament, for any backend *)

Section TournamentMore.
Context {F : FHEVM}.

Lemma tournament_winner_in (first : Bid F) (rest : list (Bid F)) :
  In (snd (tournament first rest)) (map bidder (first :: rest)).
Proof.
  induction rest as [| b rest IH] using rev_ind.
  - left. reflexivity.
  - rewrite tournament_snoc.
    change (first :: rest ++ [b]) with ((first :: rest) ++ [b]).
    rewrite map_app. apply in_or_app.
    destruct (tournament first rest) as [maxBid winner]. cbn [tournament_step snd].
    cbn [snd] in IH.
    destruct (asBool (FHE_ge (encryptedBidAmount b) maxBid)).
    + right. left. reflexivity.
    + left. exact IH.
Qed.

End TournamentMore.

(** X25. Whatever the encrypted comparison and select compute, the
    winner the tournament ends with is the bidder of one of the bids
    of the ledger; so the winner named by a settlement is a bidder of
    the ledger as it is at callback time. *)
Theorem winner_is_a_bidder :
  forall (F : FHEVM),
    (forall (first : Bid F) (rest : list (Bid F)),
        In (snd (tournament first rest)) (map bidder (first :: rest))) /\
    (forall (env : Env) (requestId : Z) (cleartexts proof : list Z)
            (s s' : State F) (evs : list (Event F)),
        myCallback env requestId cleartexts proof s = Ok (s', evs) ->
        exists id winner amount,
          evs = [AuctionSettled requestId id winner amount] /\
          In winner (map bidder (bids s))).
Proof.
  intros F. split.
  - apply tournament_winner_in.
  - intros env requestId cleartexts proof s s' evs Hok.
    apply myCallback_success in Hok
      as (_ & _ & first & rest & amount & Hbids & _ & _ & _ & ->).
    eexists _, _, _. split; [reflexivity |].
    rewrite Hbids. apply tournament_winner_in.
Qed.

Lemma winner_is_a_bidder_witness :
  myCallback (Scenario.at_ Scenario.outsider 100) 7
    Scenario.oracle_cleartexts Scenario.oracle_proof Scenario.requested
  = Ok (mark_processed 7 Scenario.requested,
        [AuctionSettled 7 1 Scenario.B 15]) /\
  exists id winner amount,
    [@AuctionSettled Scenario.F_5_15_9 7 1 Scenario.B 15]
    = [AuctionSettled 7 id winner amount] /\
    In winner (map bidder (bids Scenario.requested)).
Proof.
  assert (Hok :
    myCallback (Scenario.at_ Scenario.outsider 100) 7
      Scenario.oracle_cleartexts Scenario.oracle_proof Scenario.requested
    = Ok (mark_processed 7 Scenario.requested,
          [AuctionSettled 7 1 Scenario.B 15])) by reflexivity.
  split; [exact Hok |].
  exact (proj2 (winner_is_a_bidder Scenario.F_5_15_9) _ _ _ _ _ _ _ Hok).
Defined.

(** X26. One more bid at the end of the ledger, on a backend with real
    comparisons: if its plaintext is strictly below the maximum so far,
    the winner and the decrypted maximum stay; if it is at least the
    maximum so far, its bidder becomes the winner and its plaintext
    the maximum. *)
Theorem tournament_appended_bid :
  forall (F : FHEVM) (S : FHESemantics F)
         (first : Bid F) (rest : list (Bid F)) (b : Bid F),
    (plaintext b < decrypt (fst (tournament first rest)) ->
     snd (tournament first (rest ++ [b])) = snd (tournament first rest) /\
     decrypt (fst (tournament first (rest ++ [b])))
     = decrypt (fst (tournament first rest))) /\
    (decrypt (fst (tournament first rest)) <= plaintext b ->
     snd (tournament first (rest ++ [b])) = bidder b /\
     decrypt (fst (tournament first (rest ++ [b]))) = plaintext b).
Proof.
  intros F S first rest b.
  rewrite tournament_snoc, tournament_step_winner, tournament_step_decrypt.
  split; intros Hcmp.
  - destruct (Z.leb_spec (decrypt (fst (tournament first rest))) (plaintext b));
      [lia |]. split; [reflexivity | lia].
  - destruct (Z.leb_spec (decrypt (fst (tournament first rest))) (plaintext b));
      [| lia]. split; [reflexivity | lia].
Qed.

Lemma tournament_appended_bid_witness :
  snd (@tournament Scenario.F_10_20_20
         (fst (@Scenario.ledger Scenario.F_10_20_20 1 2 3))
         ([ {| bidder := Scenario.B;
               encryptedBidAmount := (2 : @euint32 Scenario.F_10_20_20) |} ]
          ++ [ {| bidder := Scenario.C;
                  encryptedBidAmount := (3 : @euint32 Scenario.F_10_20_20) |} ]))
  = Scenario.C.
Proof.
  apply (proj2 (tournament_appended_bid Scenario.F_10_20_20
                  (Mock.semantics _)
                  (fst (@Scenario.ledger Scenario.F_10_20_20 1 2 3))
                  [ {| bidder := Scenario.B;
                       encryptedBidAmount :=
                         (2 : @euint32 Scenario.F_10_20_20) |} ]
                  {| bidder := Scenario.C;
                     encryptedBidAmount :=
                       (3 : @euint32 Scenario.F_10_20_20) |})).
  intros Hgt. vm_compute in Hgt. discriminate Hgt.
Defined.

(** ** Cooldown setting and logging *)

(** X27. [setCooldownSeconds] is for the owner only and refuses zero.
    The new value governs the windows already running: right after the
    change a provider's [submitBid] is judged against its last
    submission time plus the new cooldown, so a shorter cooldown lets
    a waiting provider through and a longer one holds it back. *)
Theorem setCooldownSeconds_governs_running_windows :
  forall (F : FHEVM) (env : Env) (n : Z) (s : State F),
    (msg_sender env <> owner s ->
     setCooldownSeconds env n s = Revert NotOwner) /\
    (msg_sender env = owner s -> n = 0 ->
     setCooldownSeconds env n s
     = Revert (RequireFailed "Cooldown must be positive")) /\
    (msg_sender env = owner s -> 0 < n ->
     setCooldownSeconds env n s
     = Ok (set_cooldownSeconds n s,
           [CooldownSecondsSet (cooldownSeconds s) n]) /\
     forall env' amount,
       isProviderOf s (msg_sender env') = true ->
       paused s = false ->
       lastSubmissionTimeOf s (msg_sender env') + n <= MAX_UINT256 ->
       (block_timestamp env' < lastSubmissionTimeOf s (msg_sender env') + n ->
        submitBid env' amount (set_cooldownSeconds n s)
        = Revert CooldownActive) /\
       (lastSubmissionTimeOf s (msg_sender env') + n <= block_timestamp env' ->
        block_timestamp env' <= MAX_UINT256 ->
        batchOpen s = true ->
        isInitialized amount = true ->
        exists s',
          submitBid env' amount (set_cooldownSeconds n s)
          = Ok (s', [BidSubmitted (msg_sender env') (currentBatchId s) amount]))).
Proof.
  intros F env n s. split; [| split].
  - intros Hne. unfold setCooldownSeconds, onlyOwner, guard, bindR.
    apply Z.eqb_neq in Hne. now rewrite Hne.
  - intros Hown ->. unfold setCooldownSeconds, onlyOwner, guard, bindR.
    now rewrite Hown, Z.eqb_refl.
  - intros Hown Hn. split.
    + unfold setCooldownSeconds, onlyOwner, guard, bindR.
      rewrite Hown, Z.eqb_refl. apply Z.ltb_lt in Hn. now rewrite Hn.
    + intros env' amount Hprov Hp Hfit. split.
      * intros Hearly. now apply submitBid_cooldown.
      * intros Hlate Hnow Hopen Hinit. eexists.
        now apply (submitBid_ok env' amount (set_cooldownSeconds n s)).
Qed.

Lemma setCooldownSeconds_governs_running_windows_witness :
  submitBid (Scenario.at_ Scenario.A 120) (1 : @euint32 Scenario.F_5_15_9)
    Scenario.after_setup
  = Revert CooldownActive /\
  exists s',
    submitBid (Scenario.at_ Scenario.A 120) (1 : @euint32 Scenario.F_5_15_9)
      (set_cooldownSeconds 10 Scenario.after_setup)
    = Ok (s', [@BidSubmitted Scenario.F_5_15_9 Scenario.A 1 1]).
Proof.
  split; [reflexivity |].
  destruct (proj2 (proj2 (setCooldownSeconds_governs_running_windows
              Scenario.F_5_15_9 (Scenario.at_ Scenario.deployer 100) 10
              Scenario.after_setup)) eq_refl eq_refl) as [_ Hwin].
  apply (proj2 (Hwin (Scenario.at_ Scenario.A 120) 1 eq_refl eq_refl
                  (fun Hgt => ltac:(discriminate Hgt))));
    try reflexivity; intros Hgt; discriminate Hgt.
Defined.

(** X28. Every change of the storage is logged: a successful
    transaction emits at most one event, and one that emits none (an
    [addProvider] or [removeProvider] that finds nothing to do) leaves
    the storage exactly as it was. *)
Theorem state_changes_are_logged :
  forall (F : FHEVM) (env : Env) (c : Call F) (s s' : State F)
         (evs : list (Event F)),
    exec env c s = Ok (s', evs) ->
    (length evs <= 1)%nat /\
    (evs = [] ->
     s' = s /\
     exists provider, c = AddProvider provider \/ c = RemoveProvider provider).
Proof.
  intros F env c s s' evs Hex.
  destruct c; cbn [exec] in Hex.
  1-8: unfold_ops; repeat case_match; simplify_eq; cbn;
       (split; [lia |]); intros Hnil; try discriminate Hnil;
       (split; [reflexivity | eauto]).
  - apply submitBid_success in Hex as (_ & _ & _ & _ & _ & _ & ->).
    split; [cbn; lia | discriminate].
  - apply findHighestBidder_success in Hex as (first & rest & _ & _ & ->).
    split; [cbn; lia | discriminate].
  - apply myCallback_success in Hex
      as (_ & _ & first & rest & amount & _ & _ & _ & _ & ->).
    split; [cbn; lia | discriminate].
Qed.

Lemma state_changes_are_logged_witness :
  exec (Scenario.at_ Scenario.deployer 100) (AddProvider Scenario.A)
    Scenario.after_setup
  = Ok (Scenario.after_setup, []) /\
  (@length (Event Scenario.F_5_15_9) [] <= 1)%nat.
Proof.
  assert (Hex :
    exec (Scenario.at_ Scenario.deployer 100) (AddProvider Scenario.A)
      Scenario.after_setup
    = Ok (Scenario.after_setup, [])) by reflexivity.
  split; [exact Hex |].
  exact (proj1 (state_changes_are_logged Scenario.F_5_15_9 _ _ _ _ _ Hex)).
Defined.
